(** * ilabs_streamsync: the [StreamSync] session of [streamsync.py]

    A shallow embedding of [src/ilabs_streamsync/streamsync.py] and the
    properties of its session object: construction from a reference FIF
    file, adding WAV streams, and the (empty) synchronisation step.

    Python values are an inductive type, exceptions are an explicit
    [result], and the calls into [pathlib], [mne], [scipy] and
    [subprocess] go through a [World] record while every such call is
    appended to a trace of effects.  The object [self] and the trace are
    threaded by a state-and-exception monad in which a raised exception
    keeps the state reached so far, as in Python.  The world is a
    function of its arguments: two reads of one path give the same
    answer. *)

From Stdlib Require Import List String Ascii ZArith QArith Bool Lia.
Import ListNotations.
Open Scope string_scope.
Open Scope list_scope.
Open Scope Z_scope.

Set Implicit Arguments.

(** ** Python values, exceptions, results *)

(** The values the documented parameter types range over
    ([str | int | None]). *)
Inductive pyval : Type :=
| PyNone
| PyStr (s : string)
| PyInt (z : Z).

(** Truth value of an object, as tested by [not x]. *)
Definition truthy (v : pyval) : bool :=
  match v with
  | PyNone => false
  | PyStr s => negb (s =? "")%string
  | PyInt z => negb (z =? 0)
  end.

(** The exceptions the module raises itself, and [LibError] for whatever
    a library call raises (named by its class). *)
Inductive exn : Type :=
| TypeError
| OSError
| ValueError
| IndexError
| PlainException
| LibError (cls : string).

Inductive result (A : Type) : Type :=
| Ok (a : A)
| Raise (e : exn).
Arguments Ok {A} a.
Arguments Raise {A} e.

(** ** [pathlib] on POSIX paths *)

Module pathlib.

Fixpoint split_on (sep : ascii) (s : string) : list string :=
  match s with
  | EmptyString => [EmptyString]
  | String c r =>
      if Ascii.eqb c sep then EmptyString :: split_on sep r
      else match split_on sep r with
           | [] => [String c EmptyString]
           | h :: t => String c h :: t
           end
  end.

(** The components of a path: empty and ["."] components are dropped. *)
Definition parts (s : string) : list string :=
  filter (fun x => negb (x =? "")%string && negb (x =? ".")%string)
         (split_on "/" s).

(** One leading slash, or exactly two, is kept as the root. *)
Definition root (s : string) : string :=
  match s with
  | String "/" (String "/" (String "/" _)) => "/"
  | String "/" (String "/" _) => "//"
  | String "/" _ => "/"
  | _ => ""
  end.

(** [str(Path(s))]. *)
Definition path_str (s : string) : string :=
  match root s, parts s with
  | EmptyString, [] => "."
  | r, ps => (r ++ String.concat "/" ps)%string
  end.

(** [Path(s).name]: the final component, or the empty string. *)
Definition name (s : string) : string := last (parts s) "".

(** [str.rfind]: index of the last occurrence. *)
Fixpoint rfind (c : ascii) (s : string) : option nat :=
  match s with
  | EmptyString => None
  | String d r =>
      match rfind c r with
      | Some i => Some (S i)
      | None => if Ascii.eqb d c then Some O else None
      end
  end.

(** [PurePath.suffix]: the last dot of the name and what follows it,
    unless that dot is the first or the last character. *)
Definition suffix_of_name (n : string) : string :=
  match rfind "." n with
  | Some i =>
      if (Nat.ltb 0 i && Nat.ltb i (String.length n - 1))%bool
      then substring i (String.length n - i) n
      else ""
  | None => ""
  end.

Definition suffix (s : string) : string := suffix_of_name (name s).

(** [posixpath.join] of two strings, which [joinpath] parses. *)
Definition join (a b : string) : string :=
  match b with
  | String "/" _ => b
  | _ =>
      if (a =? "")%string then b
      else match rfind "/" a with
           | Some i =>
               if Nat.eqb (S i) (String.length a)
               then (a ++ b)%string
               else (a ++ "/" ++ b)%string
           | None => (a ++ "/" ++ b)%string
           end
  end.

(** [PurePath.stem]: the name without its suffix. *)
Definition stem (s : string) : string :=
  let n := name s in
  match rfind "." n with
  | Some i =>
      if (Nat.ltb 0 i && Nat.ltb i (String.length n - 1))%bool
      then substring 0 i n
      else n
  | None => n
  end.

End pathlib.

(** ** numpy arrays of samples *)

(** What [scipy.io.wavfile.read] decodes: a one-dimensional array for a
    one-channel file, otherwise a two-dimensional one of shape
    (samples, channels), kept as its rows and its number of columns. *)
Inductive wav_signal : Type :=
| Mono (xs : list Z)
| Multi (ncols : nat) (rows : list (list Z)).

(** The arrays that indexing a decoded signal can give. *)
Inductive ndarray : Type :=
| Arr1 (xs : list Z)
| Arr2 (ncols : nat) (rows : list (list Z))
| Arr3 (d1 d2 : nat) (planes : list (list (list Z))).

(** Column [j] of a list of rows. *)
Definition column (j : nat) (rows : list (list Z)) : list Z :=
  map (fun r => nth j r 0) rows.

(** An integer index [c] on an axis of length [k]: negative indices count
    from the end, anything outside [-k, k) is an [IndexError]. *)
Definition norm_index (k : nat) (c : Z) : result nat :=
  if (- Z.of_nat k <=? c) && (c <? Z.of_nat k)
  then Ok (Z.to_nat (if c <? 0 then c + Z.of_nat k else c))
  else Raise IndexError.

(** [wav_signal[:, ch]].  An integer selects along the second axis, which
    a one-dimensional array does not have; [None] is [numpy.newaxis]; a
    string is not an index. *)
Definition getitem_col (a : wav_signal) (ch : pyval) : result ndarray :=
  match ch with
  | PyInt c =>
      match a with
      | Mono _ => Raise IndexError
      | Multi k rows =>
          match norm_index k c with
          | Ok j => Ok (Arr1 (column j rows))
          | Raise e => Raise e
          end
      end
  | PyNone =>
      match a with
      | Mono xs => Ok (Arr2 1 (map (fun x => [x]) xs))
      | Multi k rows => Ok (Arr3 1 k (map (fun r => [r]) rows))
      end
  | PyStr _ => Raise IndexError
  end.

(** [1 - channel]. *)
Definition rsub1 (ch : pyval) : result pyval :=
  match ch with
  | PyInt c => Ok (PyInt (1 - c))
  | _ => Raise TypeError
  end.

(** ** The world outside the module *)

(** What [raw[name]] returns: the data rows and the sample times. *)
Record RawData : Type := mkRawData {
  rd_data : list (list Q);
  rd_times : list Q
}.

(** An [mne.io.Raw]: its sampling frequency and its item lookup (which,
    with [preload=False], reads from the file). *)
Record Raw : Type := mkRaw {
  raw_sfreq : Q;
  raw_getitem : string -> result (option RawData)
}.

(** The answers of the file system and of the libraries: [Path.exists]
    (a boolean, or the [OSError] it lets through), [mne.io.read_raw_fif],
    [scipy.io.wavfile.read], [Path.mkdir] and [subprocess.run] (the
    return code); each of them may raise. *)
Record World : Type := mkWorld {
  fs_exists : string -> result bool;
  read_raw_fif : string -> result Raw;
  wavread : string -> result (Z * wav_signal);
  fs_mkdir : string -> result unit;
  subprocess_run : list string -> result Z
}.

(** Every call that leaves the process. *)
Inductive effect : Type :=
| EExists (path : string)
| EReadRawFif (path : string)
| ERawGetItem (channel : string)
| EWavRead (path : string)
| EMkdir (path : string)
| ESubprocess (command : list string)
| EPrint (text : string).

(** The effects that only look at files. *)
Definition reads_only (e : effect) : bool :=
  match e with
  | EExists _ | EReadRawFif _ | ERawGetItem _ | EWavRead _ => true
  | EMkdir _ | ESubprocess _ | EPrint _ => false
  end.

(** ** The monad: state [S], exceptions that keep the state *)

Definition M (S A : Type) : Type := S -> result A * S.

Definition ret {S A} (a : A) : M S A := fun s => (Ok a, s).

Definition bind {S A B} (m : M S A) (k : A -> M S B) : M S B :=
  fun s =>
    match m s with
    | (Ok a, s') => k a s'
    | (Raise e, s') => (Raise e, s')
    end.

Definition raise {S A} (e : exn) : M S A := fun s => (Raise e, s).

Definition modify {S} (f : S -> S) : M S unit := fun s => (Ok tt, f s).

Definition lift_result {S A} (r : result A) : M S A := fun s => (r, s).

Declare Scope py_scope.
Delimit Scope py_scope with py.
Notation "x <- m ;; k" := (bind m (fun x => k))
  (at level 100, m at next level, right associativity) : py_scope.
Notation "' pat <- m ;; k" := (bind m (fun x => match x with pat => k end))
  (at level 100, pat pattern, m at next level, right associativity) : py_scope.
Notation "m ;;; k" := (bind m (fun _ => k))
  (at level 100, right associativity) : py_scope.
Notation "'check' b 'else_raise' e ;;; k" :=
  (if b then k else raise e)
  (at level 100, b at next level, e at next level, right associativity) : py_scope.

(** ** Calls into the world, each of them logged *)

Definition trace : Type := list effect.

Section Calls.

Variable w : World.
Context {S : Type}.

Local Open Scope py_scope.

Definition log (e : effect) : M (S * trace) unit :=
  modify (fun '(s, tr) => (s, tr ++ [e])).

(** [Path(p).exists()]: a boolean, or the [OSError] that [exists] lets
    through (a name too long, a directory that may not be searched). *)
Definition path_exists (p : string) : M (S * trace) bool :=
  log (EExists (pathlib.path_str p)) ;;;
  lift_result (fs_exists w (pathlib.path_str p)).

Definition call_read_raw_fif (p : string) : M (S * trace) Raw :=
  log (EReadRawFif p) ;;; lift_result (read_raw_fif w p).

Definition call_getitem (r : Raw) (ch : string)
  : M (S * trace) (option RawData) :=
  log (ERawGetItem ch) ;;; lift_result (raw_getitem r ch).

Definition call_wavread (p : string) : M (S * trace) (Z * wav_signal) :=
  log (EWavRead p) ;;; lift_result (wavread w p).

Definition call_mkdir (p : string) : M (S * trace) unit :=
  log (EMkdir (pathlib.path_str p)) ;;;
  lift_result (fs_mkdir w (pathlib.path_str p)).

Definition call_subprocess_run (command : list string) : M (S * trace) Z :=
  log (ESubprocess command) ;;; lift_result (subprocess_run w command).

Definition print (text : string) : M (S * trace) unit := log (EPrint text).

(** [pathlib.Path(v)]: only a string is a path. *)
Definition to_path (v : pyval) : M (S * trace) string :=
  match v with
  | PyStr p => ret p
  | _ => raise TypeError
  end.

End Calls.

(** ** The session object *)

Module StreamSync.

(** An element of [self.streams]: the tuple
    [(filename, srate, Pulses, Data)]. *)
Record entry : Type := mkEntry {
  filename : pyval;
  srate : Z;
  pulses : ndarray;
  data : ndarray
}.

(** The attributes of a [StreamSync] object. *)
Record t : Type := mkStreamSync {
  raw : Raw;
  ref_stream : option RawData;
  sfreq : Q;
  streams : list entry
}.

(** A method runs on the object and the trace of effects. *)
Definition state : Type := (t * trace)%type.

(** [self.streams.append(e)]. *)
Definition append_stream (e : entry) (self : t) : t :=
  {| raw := raw self;
     ref_stream := ref_stream self;
     sfreq := sfreq self;
     streams := streams self ++ [e] |}.

Section Methods.

Variable w : World.

Local Open Scope py_scope.

(** [StreamSync.__init__]: the object does not exist before, so the
    state is the trace alone and the result is the new object. *)
Definition __init__ (reference_object pulse_channel : pyval)
  : M (unit * trace) t :=
  check (truthy reference_object) else_raise TypeError ;;;
  match reference_object with
  | PyStr path =>
      ex <- path_exists w path ;;
      check ex else_raise OSError ;;;
      check (pathlib.suffix path =? ".fif")%string else_raise ValueError ;;;
      raw0 <- call_read_raw_fif w path ;;
      check (truthy pulse_channel) else_raise TypeError ;;;
      match pulse_channel with
      | PyStr ch =>
          item <- call_getitem raw0 ch ;;
          match item with
          | None => raise ValueError
          | Some _ =>
              self_raw <- call_read_raw_fif w path ;;
              self_ref_stream <- call_getitem raw0 ch ;;
              ret {| raw := self_raw;
                     ref_stream := self_ref_stream;
                     sfreq := raw_sfreq self_raw;
                     streams := [] |}
          end
      | _ => raise TypeError
      end
  | _ => raise TypeError
  end.

(** [StreamSync._extract_data_from_wav]. *)
Definition _extract_data_from_wav (stream : string) (channel : pyval)
  : M state (Z * ndarray * ndarray) :=
  '(rate, wav_signal) <- call_wavread w stream ;;
  p <- lift_result (getitem_col wav_signal channel) ;;
  other <- lift_result (rsub1 channel) ;;
  d <- lift_result (getitem_col wav_signal other) ;;
  ret (rate, p, d).

(** [StreamSync._extract_data_from_stream]. *)
Definition _extract_data_from_stream (stream channel : pyval)
  : M state (Z * ndarray * ndarray) :=
  path <- to_path stream ;;
  let ext := pathlib.suffix path in
  if (ext =? ".wav")%string
  then _extract_data_from_wav path channel
  else raise TypeError.

(** [StreamSync.add_stream]; [events] is not used, and the method
    returns [None]. *)
Definition add_stream (stream channel events : pyval) : M state unit :=
  '(rate, p, d) <- _extract_data_from_stream stream channel ;;
  modify (fun '(self, tr) =>
            (append_stream (mkEntry stream rate p d) self, tr)).

(** [StreamSync.do_syncing]: a docstring and two comments; it returns
    [None]. *)
Definition do_syncing : M state unit := ret tt.

End Methods.

End StreamSync.

(** ** [extract_audio_from_video] *)

Section ExtractAudio.

Variable w : World.

Local Open Scope py_scope.

Definition audio_codecout : string := "pcm_s16le".
Definition audio_suffix : string := "_16bit".

Definition ffmpeg_command (path_to_video output_path : string)
  : list string :=
  ["ffmpeg";
   "-acodec"; "pcm_s24le";
   "-i"; path_to_video;
   "-map"; "0:a";
   "-acodec"; audio_codecout;
   "-ac"; "2";
   "-y"; "-vn";
   "-loglevel"; "error";
   output_path].

Definition extract_audio_from_video (path_to_video output_dir : pyval)
  : M (unit * trace) unit :=
  p <- to_path path_to_video ;;
  let audio_file := (pathlib.stem p ++ audio_suffix ++ ".wav")%string in
  ex <- path_exists w p ;;
  check ex else_raise ValueError ;;;
  od <- to_path output_dir ;;
  taken <- path_exists w (pathlib.join od audio_file) ;;
  check (negb taken) else_raise PlainException ;;;
  call_mkdir w od ;;;
  let output_path := (od ++ "/" ++ audio_file)%string in
  rc <- call_subprocess_run w (ffmpeg_command p output_path) ;;
  if rc =? 0
  then print ("Audio extraction was successful for " ++ p)%string
  else print ("Audio extraction unsuccessful for " ++ p)%string.

End ExtractAudio.

(** ** The alignment engine of the specification

    [streamsync.py] has no pulse detector, warp estimator, event
    projector or result collection: [__init__] and [add_stream] keep the
    pulse channel as decoded and [do_syncing] is empty.  The definitions
    of this module follow the specification's sections 3, 4 and 7
    instead, over exact rationals. *)

Module Spec.

Local Open Scope Q_scope.

(** Modelled from the spec: the error taxonomy of section 7, missing
    from the source. *)
Inductive error : Type :=
| NoPulsesFoundError
| AmbiguousAlignmentError
| InsufficientMatchesError
| ImplausibleDriftError
| UnalignedStreamError.

(** Modelled from the spec: an operation returns or "fails with" one of
    the errors. *)
Inductive outcome (A : Type) : Type :=
| Returns (a : A)
| Fails (e : error).
Arguments Returns {A} a.
Arguments Fails {A} e.

(** Modelled from the spec: the Signal of section 3, missing from the
    source. *)
Record Signal : Type := mkSignal {
  sample_rate : Q;
  samples : list Q
}.

(** Modelled from the spec: the PulseTrain of section 3, onset times in
    seconds. *)
Definition PulseTrain : Type := list Q.

(** Modelled from the spec: the TimeWarp of section 3,
    t_ref = a * t_secondary + b. *)
Record TimeWarp : Type := mkTimeWarp {
  a : Q;
  b : Q
}.

(** Sum and length of a list, as rationals. *)
Definition Qsum (xs : list Q) : Q := fold_right Qplus 0 xs.

Definition Qlen {A} (xs : list A) : Q := inject_Z (Z.of_nat (List.length xs)).

(** *** PulseDetector (section 4.1) *)

(** Modelled from the spec: the detector's part of the configuration
    surface of section 6. *)
Record DetectorConfig : Type := mkDetectorConfig {
  threshold_low : Q;
  threshold_high : Q;
  refractory : Q
}.

(** Modelled from the spec: the normalisation of [detect], which is
    missing from the source; "remove DC offset", without the optional
    smoothing. *)
Definition normalize (xs : list Q) : list Q :=
  let mean := Qsum xs / Qlen xs in
  map (fun x => x - mean) xs.

(** Modelled from the spec: the crossing time of [detect], missing from
    the source; "linearly interpolate the exact crossing time between
    the two bracketing samples", sample [i] being the first one at or
    above the high threshold and [prev] the sample before it. *)
Definition crossing_time (cfg : DetectorConfig) (rate : Q) (i : nat)
           (prev : option Q) (x : Q) : Q :=
  match prev with
  | None => 0
  | Some p =>
      (inject_Z (Z.of_nat i) - 1 + (threshold_high cfg - p) / (x - p)) / rate
  end.

(** Modelled from the spec: the scan of [detect], missing from the
    source; a high/low state under two thresholds, "an onset time at
    every rising transition from low to high", and "a minimum
    refractory period between onsets".  The state starts low. *)
Fixpoint scan (cfg : DetectorConfig) (rate : Q) (i : nat) (prev : option Q)
         (high : bool) (last : option Q) (xs : list Q) : PulseTrain :=
  match xs with
  | [] => []
  | x :: rest =>
      if high
      then scan cfg rate (S i) (Some x)
                (negb (Qle_bool x (threshold_low cfg))) last rest
      else if Qle_bool (threshold_high cfg) x
      then let t := crossing_time cfg rate i prev x in
           let keep := match last with
                       | None => true
                       | Some t0 => Qle_bool (refractory cfg) (t - t0)
                       end in
           if keep
           then t :: scan cfg rate (S i) (Some x) true (Some t) rest
           else scan cfg rate (S i) (Some x) true last rest
      else scan cfg rate (S i) (Some x) false last rest
  end.

(** Modelled from the spec: the onsets of a signal found by [detect],
    missing from the source. *)
Definition onsets (cfg : DetectorConfig) (s : Signal) : PulseTrain :=
  scan cfg (sample_rate s) 0 None false None (normalize (samples s)).

(** Modelled from the spec: [PulseDetector.detect], missing from the
    source; "fails with NoPulsesFoundError if fewer than 2 onsets are
    detected". *)
Definition detect (cfg : DetectorConfig) (s : Signal) : outcome PulseTrain :=
  let found := onsets cfg s in
  if Nat.ltb (List.length found) 2 then Fails NoPulsesFoundError
  else Returns found.

(** *** EventProjector (section 4.4) *)

(** Modelled from the spec: [EventProjector.project], missing from the
    source; "pure arithmetic application of a * t + b". *)
Definition project (warp : TimeWarp) (event_time_seconds : Q) : Q :=
  a warp * event_time_seconds + b warp.

(** *** WarpEstimator (section 4.3) *)

(** Modelled from the spec: the PulseMatch of section 3, the two pulse
    indices with the onset times they designate in the reference and in
    the secondary train. *)
Record PulseMatch : Type := mkPulseMatch {
  reference_pulse_index : nat;
  secondary_pulse_index : nat;
  t_ref : Q;
  t_sec : Q
}.

(** Modelled from the spec: the confidence labels of section 4.3. *)
Inductive Label : Type := High | Medium | Low | Failed.

(** Modelled from the spec: the estimator's part of the configuration
    surface of section 6.  The residual thresholds are standard
    deviations; they are compared through their squares with the
    residual variance, a square root not being rational. *)
Record EstimatorConfig : Type := mkEstimatorConfig {
  min_matches : nat;
  outlier_stddev : Q;
  drift_low : Q;
  drift_high : Q;
  high_stddev : Q;
  high_count : nat;
  medium_stddev : Q;
  low_stddev : Q
}.

(** Modelled from the spec: the regression of [fit], missing from the
    source; "ordinary least-squares regression of reference onset times
    against secondary onset times yields (a, b)". *)
Definition ols (ms : list PulseMatch) : TimeWarp :=
  let n := Qlen ms in
  let sx := Qsum (map t_sec ms) in
  let sy := Qsum (map t_ref ms) in
  let sxx := Qsum (map (fun m => t_sec m * t_sec m) ms) in
  let sxy := Qsum (map (fun m => t_sec m * t_ref m) ms) in
  let slope := (n * sxy - sx * sy) / (n * sxx - sx * sx) in
  {| a := slope; b := (sy - slope * sx) / n |}.

(** Modelled from the spec: the residual of a match under a warp. *)
Definition residual (w : TimeWarp) (m : PulseMatch) : Q :=
  t_ref m - project w (t_sec m).

(** Modelled from the spec: the squared residual of a match. *)
Definition sq_residual (w : TimeWarp) (m : PulseMatch) : Q :=
  residual w m * residual w m.

(** Modelled from the spec: the square of the residual standard
    deviation. *)
Definition residual_variance (w : TimeWarp) (ms : list PulseMatch) : Q :=
  Qsum (map (sq_residual w) ms) / Qlen ms.

(** The largest of a list of non-negative rationals. *)
Definition Qmax_list (xs : list Q) : Q :=
  fold_right (fun x m => if Qle_bool m x then x else m) 0 xs.

(** Modelled from the spec: the robustness pass of [fit], missing from
    the source; "recompute the fit excluding the largest-residual
    outliers (a single robustness pass ...) if the initial residual
    standard deviation exceeds a configurable threshold".  The pairs
    excluded are those whose residual is the largest. *)
Definition robust_fit (cfg : EstimatorConfig) (ms : list PulseMatch)
  : TimeWarp * list PulseMatch :=
  let w0 := ols ms in
  if Qle_bool (residual_variance w0 ms)
              (outlier_stddev cfg * outlier_stddev cfg)
  then (w0, ms)
  else
    let worst := Qmax_list (map (sq_residual w0) ms) in
    let kept := filter (fun m => negb (Qle_bool worst (sq_residual w0 m))) ms in
    (ols kept, kept).

(** Modelled from the spec: "a configurable plausible drift bound". *)
Definition in_drift_bound (cfg : EstimatorConfig) (scale : Q) : bool :=
  Qle_bool (drift_low cfg) scale && Qle_bool scale (drift_high cfg).

(** Modelled from the spec: the label of [fit], missing from the source;
    "a discrete label ... derived from fixed thresholds on residual
    stddev and match_count". *)
Definition label_of (cfg : EstimatorConfig) (variance : Q) (count : nat)
  : Label :=
  if Qle_bool variance (high_stddev cfg * high_stddev cfg)
     && Nat.leb (high_count cfg) count
  then High
  else if Qle_bool variance (medium_stddev cfg * medium_stddev cfg)
  then Medium
  else if Qle_bool variance (low_stddev cfg * low_stddev cfg)
  then Low
  else Failed.

(** Modelled from the spec: what [fit] hands back, the warp when it is
    accepted and the figures of the report. *)
Record FitResult : Type := mkFitResult {
  fr_warp : option TimeWarp;
  fr_match_count : nat;
  fr_residual_variance : Q;
  fr_label : Label
}.

(** Modelled from the spec: [WarpEstimator.fit], missing from the
    source; it "fails with InsufficientMatchesError if fewer than a
    minimum count ... of matches remain" and "fails (marks the stream
    failed rather than raising) if a falls outside the plausible drift
    bound". *)
Definition fit (cfg : EstimatorConfig) (ms : list PulseMatch)
  : outcome FitResult :=
  if Nat.ltb (List.length ms) (min_matches cfg)
  then Fails InsufficientMatchesError
  else
    let '(w, used) := robust_fit cfg ms in
    let variance := residual_variance w used in
    let label :=
      if in_drift_bound cfg (a w)
      then label_of cfg variance (List.length used)
      else Failed in
    Returns {| fr_warp := match label with Failed => None | _ => Some w end;
               fr_match_count := List.length used;
               fr_residual_variance := variance;
               fr_label := label |}.

(** *** SyncOrchestrator (section 4.5) *)

(** Modelled from the spec: the SecondaryStream of section 3, its
    identifier and its pulse channel. *)
Record SecondaryStream : Type := mkSecondaryStream {
  identifier : string;
  pulse_signal : Signal
}.

(** Modelled from the spec: the SyncResult of section 3, with no warp
    when the stream failed. *)
Record SyncResult : Type := mkSyncResult {
  stream_id : string;
  warp : option TimeWarp;
  match_count : nat;
  residual_variance_of : Q;
  confidence_label : Label
}.

(** Modelled from the spec: the state of the SyncOrchestrator, the
    reference pulse train and the collection of results. *)
Record Session : Type := mkSession {
  reference_train : PulseTrain;
  results : list SyncResult
}.

(** Modelled from the spec: "a SyncResult with confidence_label failed
    and no usable TimeWarp". *)
Definition failed_result (id : string) : SyncResult :=
  {| stream_id := id; warp := None; match_count := 0;
     residual_variance_of := 0; confidence_label := Failed |}.

(** Modelled from the spec: the result collection of the orchestrator;
    "re-running alignment for a stream replaces its prior SyncResult",
    otherwise the result is appended. *)
Fixpoint store (r : SyncResult) (rs : list SyncResult) : list SyncResult :=
  match rs with
  | [] => [r]
  | r0 :: rest =>
      if (stream_id r0 =? stream_id r)%string then r :: rest
      else r0 :: store r rest
  end.

Section Orchestrator.

(** The PulseMatcher of section 4.2 is taken as given. *)
Variable match_trains :
  PulseTrain -> PulseTrain -> outcome (Z * list PulseMatch).
Variable dcfg : DetectorConfig.
Variable ecfg : EstimatorConfig.

(** Modelled from the spec: [SyncOrchestrator.set_reference], missing
    from the source. *)
Definition set_reference (signal : Signal) : outcome Session :=
  match detect dcfg signal with
  | Returns train => Returns {| reference_train := train; results := [] |}
  | Fails e => Fails e
  end.

(** Modelled from the spec: detect, match and fit for one stream,
    missing from the source; a failure of any of the three is
    "recorded as a failed SyncResult rather than raised". *)
Definition align (s : Session) (stream : SecondaryStream) : SyncResult :=
  match detect dcfg (pulse_signal stream) with
  | Fails _ => failed_result (identifier stream)
  | Returns train =>
      match match_trains (reference_train s) train with
      | Fails _ => failed_result (identifier stream)
      | Returns (_, ms) =>
          match fit ecfg ms with
          | Fails _ => failed_result (identifier stream)
          | Returns r =>
              {| stream_id := identifier stream;
                 warp := fr_warp r;
                 match_count := fr_match_count r;
                 residual_variance_of := fr_residual_variance r;
                 confidence_label := fr_label r |}
          end
      end
  end.

(** Modelled from the spec: [SyncOrchestrator.add_stream], missing
    from the source; it "stores and returns the SyncResult". *)
Definition add_stream (s : Session) (stream : SecondaryStream)
  : SyncResult * Session :=
  let r := align s stream in
  (r, {| reference_train := reference_train s;
         results := store r (results s) |}).

(** Modelled from the spec: the sessions that [set_reference] and
    [add_stream] produce. *)
Inductive reachable : Session -> Prop :=
| reach_reference signal s :
    set_reference signal = Returns s -> reachable s
| reach_add s stream :
    reachable s -> reachable (snd (add_stream s stream)).

End Orchestrator.

(** Modelled from the spec: "every TimeWarp's a must lie within a
    configurable plausible drift bound ... or the stream is flagged
    failed"; an accepted warp is one of a result not labelled failed. *)
Definition drift_checked (cfg : EstimatorConfig) (r : SyncResult) : Prop :=
  forall w, warp r = Some w ->
            (drift_low cfg <= a w /\ a w <= drift_high cfg)
            /\ confidence_label r <> Failed.

End Spec.

(** ** A caller and a concrete world *)

(** The inputs [__init__] accepts: a non-empty string naming an existing
    [.fif] file that loads, and a non-empty string naming a channel whose
    lookup gives data. *)
Definition valid_reference (w : World) (reference_object pulse_channel : pyval)
           (r : Raw) (d : RawData) : Prop :=
  exists p ch,
    reference_object = PyStr p /\ p <> ""
    /\ fs_exists w (pathlib.path_str p) = Ok true
    /\ pathlib.suffix p = ".fif"
    /\ read_raw_fif w p = Ok r
    /\ pulse_channel = PyStr ch /\ ch <> ""
    /\ raw_getitem r ch = Ok (Some d).

(** A caller that adds streams one after the other, each with an
    integer channel, and goes on after an exception, keeping the object
    as the failed call left it. *)
Definition add_all (w : World) (calls : list (pyval * Z * pyval))
           (st : StreamSync.state) : StreamSync.state :=
fold_left (fun s '(stream, c, events) =>
             snd (StreamSync.add_stream w stream (PyInt c) events s))
          calls st.

(** What a call with integer channel [c] leaves in [self.streams]: the
    tuple (stream, rate, column c, column 1 - c) when the stream is a
    path with suffix [.wav] whose file decodes to a two-dimensional
    signal in which [c] and [1 - c] both index a column, and nothing
    otherwise. *)
Definition stored (w : World) (call : pyval * Z * pyval)
  : list StreamSync.entry :=
match call with
| (PyStr p, c, _) =>
    if (pathlib.suffix p =? ".wav")%string
    then match wavread w p with
         | Ok (rate, Multi k rows) =>
             match norm_index k c, norm_index k (1 - c) with
             | Ok i, Ok j =>
                 [StreamSync.mkEntry (PyStr p) rate
                    (Arr1 (column i rows)) (Arr1 (column j rows))]
             | _, _ => []
             end
         | _ => []
         end
    else []
| _ => []
end.

Module Demo.

(** A reference recording whose stimulus channel is flat: no pulse. *)
Definition flat : RawData :=
{| rd_data := [[0; 0; 0; 0; 0; 0]%Q];
   rd_times := [0; 1 # 1000; 2 # 1000; 3 # 1000; 4 # 1000; 5 # 1000]%Q |}.

Definition reference : Raw :=
{| raw_sfreq := 1000;
   raw_getitem := fun ch =>
     if (ch =? "STI101")%string then Ok (Some flat)
     else Raise (LibError "ValueError") |}.

Definition stereo : wav_signal := Multi 2 [[0; 5]; [0; -3]; [0; 7]].

Definition mono : wav_signal := Mono [4; -1; 3; -2].

Definition files : list string :=
["ref.fif"; "a.wav"; "mono.wav"; "c.wav"; "talk.mp4"].

Definition world : World :=
{| fs_exists := fun p => Ok (existsb (String.eqb p) files);
   read_raw_fif := fun p =>
     if (p =? "ref.fif")%string then Ok reference
     else Raise (LibError "FileNotFoundError");
   wavread := fun p =>
     if (p =? "a.wav")%string then Ok (44100, stereo)
     else if (p =? "c.wav")%string then Ok (48000, stereo)
     else if (p =? "mono.wav")%string then Ok (8000, mono)
     else Raise (LibError "FileNotFoundError");
   fs_mkdir := fun _ => Ok tt;
   subprocess_run := fun _ => Ok 0 |}.

(** The object that [StreamSync("ref.fif", "STI101")] builds. *)
Definition session : StreamSync.t :=
{| StreamSync.raw := reference;
   StreamSync.ref_stream := Some flat;
   StreamSync.sfreq := 1000;
   StreamSync.streams := [] |}.

(** A square wave of three pulses at 10 Hz, and a flat signal. *)
Definition square : Spec.Signal :=
{| Spec.sample_rate := 10;
   Spec.samples := [0; 0; 1; 1; 0; 0; 1; 1; 0; 0; 1; 1; 0; 0]%Q |}.

Definition silence : Spec.Signal :=
{| Spec.sample_rate := 10; Spec.samples := [0; 0; 0; 0; 0; 0]%Q |}.

Definition detector : Spec.DetectorConfig :=
{| Spec.threshold_low := - (1 # 4);
   Spec.threshold_high := 1 # 4;
   Spec.refractory := 1 # 10 |}.

Definition estimator : Spec.EstimatorConfig :=
{| Spec.min_matches := 3;
   Spec.outlier_stddev := 1 # 100;
   Spec.drift_low := 9 # 10;
   Spec.drift_high := 11 # 10;
   Spec.high_stddev := 1 # 1000;
   Spec.high_count := 3;
   Spec.medium_stddev := 1 # 100;
   Spec.low_stddev := 1 # 10 |}.

(** A matcher that pairs the pulses of two trains index by index. *)
Fixpoint pair_up (i : nat) (ref sec : Spec.PulseTrain)
  : list Spec.PulseMatch :=
match ref, sec with
| r :: ref', s :: sec' => Spec.mkPulseMatch i i r s :: pair_up (S i) ref' sec'
| _, _ => []
end.

Definition matcher (ref sec : Spec.PulseTrain)
  : Spec.outcome (Z * list Spec.PulseMatch) :=
Spec.Returns (0, pair_up 0 ref sec).

(** Three matches on a clock that runs twice too fast. *)
Definition doubled : list Spec.PulseMatch :=
[Spec.mkPulseMatch 0 0 2 1; Spec.mkPulseMatch 1 1 4 2;
 Spec.mkPulseMatch 2 2 6 3]%Q.

End Demo.

(** ** Names of [extract_audio_from_video] *)

(** [c in s]. *)
Fixpoint contains (c : ascii) (s : string) : bool :=
  match s with
  | EmptyString => false
  | String d r => Ascii.eqb d c || contains c r
  end.

(** The local [audio_file] of [extract_audio_from_video]. *)
Definition audio_file (path_to_video : string) : string :=
  (pathlib.stem path_to_video ++ audio_suffix ++ ".wav")%string.

(** The local [output_path] of [extract_audio_from_video]. *)
Definition output_path (path_to_video output_dir : string) : string :=
  (output_dir ++ "/" ++ audio_file path_to_video)%string.

(** A second world: a video whose audio was extracted before, one whose
    audio was not, one in a directory that may not be searched, and an
    ffmpeg that returns 1. *)
Module Studio.

Definition files : list string :=
["talk.mp4"; "out/talk_16bit.wav"; "new.mp4"; "three.wav"].

Definition world : World :=
{| fs_exists := fun p =>
     if (p =? "locked/clip.mp4")%string then Raise (LibError "PermissionError")
     else Ok (existsb (String.eqb p) files);
   read_raw_fif := fun _ => Raise (LibError "FileNotFoundError");
   wavread := fun p =>
     if (p =? "three.wav")%string
     then Ok (22050, Multi 3 [[1; 2; 3]; [4; 5; 6]])
     else Raise (LibError "FileNotFoundError");
   fs_mkdir := fun _ => Ok tt;
   subprocess_run := fun _ => Ok 1 |}.

End Studio.

(** * Properties of the source *)

Unset Implicit Arguments.

#[local] Arguments Z.sub : simpl never.
#[local] Arguments Z.add : simpl never.
#[local] Arguments Z.opp : simpl never.
#[local] Arguments Z.of_nat : simpl never.

Ltac run_py :=
  unfold StreamSync.add_stream, StreamSync._extract_data_from_stream,
    StreamSync._extract_data_from_wav, StreamSync.do_syncing,
    StreamSync.__init__, path_exists, call_read_raw_fif, call_getitem,
    call_wavread, to_path, log, bind, ret, raise, modify, lift_result;
  simpl.

(** [_extract_data_from_wav], step by step. *)
Lemma extract_wav_run (w : World) (p : string) (ch : pyval)
      (self : StreamSync.t) (tr : trace) :
  StreamSync._extract_data_from_wav w p ch (self, tr) =
  (match wavread w p with
   | Raise e => Raise e
   | Ok (rate, sig) =>
       match getitem_col sig ch with
       | Raise e => Raise e
       | Ok pl =>
           match rsub1 ch with
           | Raise e => Raise e
           | Ok other =>
               match getitem_col sig other with
               | Raise e => Raise e
               | Ok d => Ok (rate, pl, d)
               end
           end
       end
   end, (self, tr ++ [EWavRead p])).
Proof.
  run_py.
  destruct (wavread w p) as [[rate sig]|e]; [|reflexivity].
  destruct (getitem_col sig ch) as [pl|e]; [|reflexivity].
  destruct (rsub1 ch) as [other|e]; [|reflexivity].
  destruct (getitem_col sig other) as [d|e]; reflexivity.
Qed.

(** [_extract_data_from_wav] changes the trace only, by one read. *)
Lemma extract_wav_state (w : World) (p : string) (ch : pyval)
      (self : StreamSync.t) (tr : trace) :
  exists r,
    StreamSync._extract_data_from_wav w p ch (self, tr)
    = (r, (self, tr ++ [EWavRead p])).
Proof. rewrite extract_wav_run. eexists. reflexivity. Qed.

(** [add_stream] in terms of [_extract_data_from_wav]. *)
Lemma add_stream_run (w : World) (stream ch ev : pyval)
      (self : StreamSync.t) (tr : trace) :
  StreamSync.add_stream w stream ch ev (self, tr) =
  match stream with
  | PyStr p =>
      if (pathlib.suffix p =? ".wav")%string
      then match StreamSync._extract_data_from_wav w p ch (self, tr) with
           | (Ok (rate, pl, d), (self', tr')) =>
               (Ok tt,
                (StreamSync.append_stream
                   (StreamSync.mkEntry stream rate pl d) self', tr'))
           | (Raise e, st') => (Raise e, st')
           end
      else (Raise TypeError, (self, tr))
  | _ => (Raise TypeError, (self, tr))
  end.
Proof.
  destruct stream as [|p|z]; try reflexivity.
  unfold StreamSync.add_stream, StreamSync._extract_data_from_stream, to_path.
  unfold bind at 1 2. unfold ret at 1. cbv beta iota.
  destruct (pathlib.suffix p =? ".wav")%string; [|reflexivity].
  destruct (StreamSync._extract_data_from_wav w p ch (self, tr))
    as [[[[rate pl] d]|e] [self' tr']]; reflexivity.
Qed.

(** The trace only grows, and by file reads only, in [add_stream]. *)
Lemma add_stream_trace (w : World) (stream ch ev : pyval)
      (self : StreamSync.t) (tr : trace) :
  exists es,
    snd (snd (StreamSync.add_stream w stream ch ev (self, tr))) = tr ++ es
    /\ forallb reads_only es = true.
Proof.
  rewrite add_stream_run.
  destruct stream as [|p|z];
    try (exists []; rewrite app_nil_r; split; reflexivity).
  destruct (pathlib.suffix p =? ".wav")%string;
    [|exists []; rewrite app_nil_r; split; reflexivity].
  destruct (extract_wav_state w p ch self tr) as [r ->].
  exists [EWavRead p]. destruct r as [[[rate pl] d]|e]; split; reflexivity.
Qed.

(** C8: a call of [add_stream] on a path whose suffix is not [.wav]
    raises [TypeError] and leaves the object, [self.streams] included,
    as it was; the append is not reached and no file is opened. *)
Theorem add_stream_unsupported_suffix
        (w : World) (p : string) (channel events : pyval)
        (st : StreamSync.state) :
  pathlib.suffix p <> ".wav" ->
  StreamSync.add_stream w (PyStr p) channel events st = (Raise TypeError, st).
Proof.
  intros H. destruct st as [self tr]. rewrite add_stream_run.
  destruct (String.eqb_spec (pathlib.suffix p) ".wav") as [E|_];
    [contradiction|reflexivity].
Qed.

Lemma add_stream_unsupported_suffix_witness :
  pathlib.suffix "videos/clip.mp4" <> ".wav"
  /\ StreamSync.add_stream Demo.world (PyStr "videos/clip.mp4")
       (PyInt 0) PyNone (Demo.session, [])
     = (Raise TypeError, (Demo.session, [])).
Proof.
  assert (H : pathlib.suffix "videos/clip.mp4" <> ".wav")
    by (vm_compute; discriminate).
  split; [exact H|].
  exact (add_stream_unsupported_suffix Demo.world "videos/clip.mp4"
           (PyInt 0) PyNone (Demo.session, []) H).
Defined.

(** C10: [do_syncing] returns [None] and changes nothing: the object
    (raw, ref_stream, sfreq, streams) and the trace of effects are the
    same after the call, whatever the session. *)
Theorem do_syncing_is_noop (st : StreamSync.state) :
  StreamSync.do_syncing st = (Ok tt, st).
Proof. reflexivity. Qed.

(** C9: when the file decodes to a signal at rate [rate], a channel
    [c] in {0, 1} on a two-dimensional signal of at least two columns
    gives (rate, column c, column 1 - c); a one-dimensional signal gives
    [IndexError] for every integer channel, and so does a two-column
    signal for every integer channel outside {0, 1}. *)
Theorem extract_data_from_wav_columns
        (w : World) (p : string) (rate : Z) (sig : wav_signal) (c : Z)
        (st : StreamSync.state) :
  wavread w p = Ok (rate, sig) ->
  let r := fst (StreamSync._extract_data_from_wav w p (PyInt c) st) in
  (forall k rows, sig = Multi k rows -> (2 <= k)%nat -> c = 0 \/ c = 1 ->
     r = Ok (rate, Arr1 (column (Z.to_nat c) rows),
             Arr1 (column (Z.to_nat (1 - c)) rows)))
  /\ (forall xs, sig = Mono xs -> r = Raise IndexError)
  /\ (forall rows, sig = Multi 2 rows -> c <> 0 -> c <> 1 ->
        r = Raise IndexError).
Proof.
  intros H r. subst r. destruct st as [self tr].
  rewrite extract_wav_run, H. cbn [fst].
  split; [|split].
  - intros k rows -> Hk [-> | ->]; cbn [getitem_col rsub1]; unfold norm_index.
    + replace (- Z.of_nat k <=? 0) with true by (symmetry; apply Z.leb_le; lia).
      replace (0 <? Z.of_nat k) with true by (symmetry; apply Z.ltb_lt; lia).
      replace (- Z.of_nat k <=? 1 - 0) with true
        by (symmetry; apply Z.leb_le; lia).
      replace (1 - 0 <? Z.of_nat k) with true
        by (symmetry; apply Z.ltb_lt; lia).
      reflexivity.
    + replace (- Z.of_nat k <=? 1) with true by (symmetry; apply Z.leb_le; lia).
      replace (1 <? Z.of_nat k) with true by (symmetry; apply Z.ltb_lt; lia).
      replace (- Z.of_nat k <=? 1 - 1) with true
        by (symmetry; apply Z.leb_le; lia).
      replace (1 - 1 <? Z.of_nat k) with true
        by (symmetry; apply Z.ltb_lt; lia).
      reflexivity.
  - intros xs ->. reflexivity.
  - intros rows -> H0 H1. cbn [getitem_col rsub1]. unfold norm_index.
    change (Z.of_nat 2) with 2.
    destruct (Z.leb_spec (- (2)) c), (Z.ltb_spec c 2); cbn [andb]; try reflexivity.
    destruct (Z.leb_spec (- (2)) (1 - c)), (Z.ltb_spec (1 - c) 2);
      cbn [andb]; try reflexivity.
    lia.
Qed.

Lemma extract_data_from_wav_columns_witness :
  wavread Demo.world "a.wav" = Ok (44100, Demo.stereo)
  /\ fst (StreamSync._extract_data_from_wav Demo.world "a.wav" (PyInt 1)
            (Demo.session, []))
     = Ok (44100, Arr1 [5; -3; 7], Arr1 [0; 0; 0]).
Proof.
  split; [reflexivity|].
  exact (proj1 (extract_data_from_wav_columns Demo.world "a.wav" 44100
                  Demo.stereo 1 (Demo.session, []) eq_refl)
               2%nat [[0; 5]; [0; -3]; [0; 7]] eq_refl (le_n 2)
               (or_intror eq_refl)).
Defined.

(** An index out of range is an [IndexError]. *)
Lemma norm_index_error (k : nat) (c : Z) (e : exn) :
  norm_index k c = Raise e -> e = IndexError.
Proof.
  unfold norm_index. destruct (_ && _)%bool; [discriminate|].
  intros H. injection H as <-. reflexivity.
Qed.

(** What a call with an integer channel returns and stores. *)
Lemma add_stream_stored (w : World) (stream : pyval) (c : Z) (ev : pyval)
      (self : StreamSync.t) (tr : trace) :
  exists tr',
    StreamSync.add_stream w stream (PyInt c) ev (self, tr)
    = match stored w (stream, c, ev) with
      | [] =>
          (Raise match stream with
                 | PyStr p =>
                     if (pathlib.suffix p =? ".wav")%string
                     then match wavread w p with
                          | Raise e => e
                          | Ok _ => IndexError
                          end
                     else TypeError
                 | _ => TypeError
                 end, (self, tr'))
      | e :: _ => (Ok tt, (StreamSync.append_stream e self, tr'))
      end.
Proof.
  rewrite add_stream_run. unfold stored.
  destruct stream as [|p|z]; try (eexists; reflexivity).
  destruct (pathlib.suffix p =? ".wav")%string; [|eexists; reflexivity].
  rewrite extract_wav_run.
  destruct (wavread w p) as [[rate [xs|k rows]]|e]; try (eexists; reflexivity).
  cbn [getitem_col rsub1].
  destruct (norm_index k c) as [i|e1] eqn:N1.
  2:{ apply norm_index_error in N1 as ->. eexists; reflexivity. }
  destruct (norm_index k (1 - c)) as [j|e2] eqn:N2; [eexists; reflexivity|].
  apply norm_index_error in N2 as ->. eexists; reflexivity.
Qed.

(** C1, as stated, fails: a one-channel recording (data the session
    cannot use) makes [add_stream] raise [IndexError], and a stereo
    file whose pulse column is flat is stored as decoded, without
    detection, matching, fitting or any label. *)
Lemma add_stream_raises_on_unusable_data :
  StreamSync.add_stream Demo.world (PyStr "mono.wav") (PyInt 0) PyNone
    (Demo.session, [])
  = (Raise IndexError, (Demo.session, [EWavRead "mono.wav"]))
  /\ StreamSync.add_stream Demo.world (PyStr "a.wav") (PyInt 0) PyNone
       (Demo.session, [])
     = (Ok tt,
        (StreamSync.append_stream
           (StreamSync.mkEntry (PyStr "a.wav") 44100
              (Arr1 [0; 0; 0]) (Arr1 [5; -3; 7]))
           Demo.session,
         [EWavRead "a.wav"])).
Proof. repeat split. Qed.

(** C1, amended: with an integer channel [c], [add_stream] returns
    [None] exactly for a [.wav] path whose file decodes to a
    two-dimensional signal in which [c] and [1 - c] both index a
    column, and then it has appended the tuple
    (stream, rate, column c, column 1 - c) to [self.streams]; in every
    other case with an integer channel the exception leaves
    [add_stream] and the object is unchanged. *)
Theorem add_stream_outcome
        (w : World) (stream : pyval) (c : Z) (events : pyval)
        (self : StreamSync.t) (tr : trace) :
  match StreamSync.add_stream w stream (PyInt c) events (self, tr) with
  | (Ok tt, (self', _)) =>
      exists p rate k rows i j,
        stream = PyStr p
        /\ pathlib.suffix p = ".wav"
        /\ wavread w p = Ok (rate, Multi k rows)
        /\ norm_index k c = Ok i /\ norm_index k (1 - c) = Ok j
        /\ self' = StreamSync.append_stream
                     (StreamSync.mkEntry stream rate
                        (Arr1 (column i rows)) (Arr1 (column j rows)))
                     self
  | (Raise _, (self', _)) =>
      self' = self
      /\ ~ (exists p rate k rows i j,
               stream = PyStr p
               /\ pathlib.suffix p = ".wav"
               /\ wavread w p = Ok (rate, Multi k rows)
               /\ norm_index k c = Ok i /\ norm_index k (1 - c) = Ok j)
  end.
Proof.
  rewrite add_stream_run.
  destruct stream as [|p|z].
  - split; [reflexivity|]. intros (p & ? & ? & ? & ? & ? & E & _).
    discriminate E.
  - destruct (String.eqb_spec (pathlib.suffix p) ".wav") as [S|S].
    2:{ split; [reflexivity|].
        intros (p' & ? & ? & ? & ? & ? & E & S' & _).
        injection E as <-. contradiction. }
    rewrite extract_wav_run.
    destruct (wavread w p) as [[rate [xs|k rows]]|e] eqn:W.
    + split; [reflexivity|].
      intros (p' & ? & ? & ? & ? & ? & E & _ & W' & _).
      injection E as <-. congruence.
    + cbn [getitem_col rsub1].
      destruct (norm_index k c) as [i|e1] eqn:N1.
      * destruct (norm_index k (1 - c)) as [j|e2] eqn:N2.
        -- exists p, rate, k, rows, i, j. repeat split; auto.
        -- split; [reflexivity|].
           intros (p' & rate' & k' & rows' & i' & j' & E & _ & W' & _ & N2').
           injection E as <-. rewrite W in W'. injection W' as <- <- <-.
           congruence.
      * split; [reflexivity|].
        intros (p' & rate' & k' & rows' & i' & j' & E & _ & W' & N1' & _).
        injection E as <-. rewrite W in W'. injection W' as <- <- <-.
        congruence.
    + split; [reflexivity|].
      intros (p' & ? & ? & ? & ? & ? & E & _ & W' & _).
      injection E as <-. congruence.
  - split; [reflexivity|]. intros (p & ? & ? & ? & ? & ? & E & _).
    discriminate E.
Qed.

(** C2, as stated, fails: of four streams handed to [add_stream], the
    one-channel file and the video are in no collection of the session
    afterwards: [self.streams] is the two tuples of the two stereo
    files; and [do_syncing] returns [None], not a report. *)
Lemma failed_streams_are_dropped :
  let st := add_all Demo.world
              [(PyStr "a.wav", 0, PyNone);
               (PyStr "mono.wav", 0, PyNone);
               (PyStr "clip.mp4", 0, PyNone);
               (PyStr "c.wav", 1, PyNone)]
              (Demo.session, []) in
  StreamSync.streams (fst st)
  = [StreamSync.mkEntry (PyStr "a.wav") 44100
       (Arr1 [0; 0; 0]) (Arr1 [5; -3; 7]);
     StreamSync.mkEntry (PyStr "c.wav") 48000
       (Arr1 [5; -3; 7]) (Arr1 [0; 0; 0])]
  /\ StreamSync.do_syncing st = (Ok tt, st).
Proof. split; reflexivity. Qed.

(** C2, amended: there is no report; [do_syncing] returns [None] and
    changes nothing.  After any sequence of calls of [add_stream] with
    integer channels, [self.streams] is the list it was, followed in the
    order of the calls by the tuple (stream, rate, column c,
    column 1 - c) of each call that returned, and by nothing for a call
    that raised; the reference ([raw], [ref_stream], [sfreq]) is as it
    was. *)
Theorem streams_hold_the_successful_adds
        (w : World) (calls : list (pyval * Z * pyval))
        (st : StreamSync.state) :
  StreamSync.streams (fst (add_all w calls st))
  = StreamSync.streams (fst st) ++ flat_map (stored w) calls
  /\ StreamSync.raw (fst (add_all w calls st)) = StreamSync.raw (fst st)
  /\ StreamSync.ref_stream (fst (add_all w calls st))
     = StreamSync.ref_stream (fst st)
  /\ StreamSync.sfreq (fst (add_all w calls st)) = StreamSync.sfreq (fst st)
  /\ (forall stream c events st0,
         match fst (StreamSync.add_stream w stream (PyInt c) events st0) with
         | Ok tt => exists e, stored w (stream, c, events) = [e]
         | Raise _ => stored w (stream, c, events) = []
         end)
  /\ StreamSync.do_syncing (add_all w calls st)
     = (Ok tt, add_all w calls st).
Proof.
  assert (K : forall stream c events st0,
             match fst (StreamSync.add_stream w stream (PyInt c) events st0) with
             | Ok tt => exists e, stored w (stream, c, events) = [e]
             | Raise _ => stored w (stream, c, events) = []
             end).
  { intros stream c events [self0 tr0].
    destruct (add_stream_stored w stream c events self0 tr0) as [tr' ->].
    destruct (stored w (stream, c, events)) as [|e l] eqn:E; cbn [fst].
    - reflexivity.
    - exists e. f_equal.
      unfold stored in E. destruct stream as [|p|z]; try discriminate E.
      destruct (pathlib.suffix p =? ".wav")%string; [|discriminate E].
      destruct (wavread w p) as [[rate [xs|k rows]]|x]; try discriminate E.
      destruct (norm_index k c); [|discriminate E].
      destruct (norm_index k (1 - c)); [|discriminate E].
      injection E as _ <-. reflexivity. }
  assert (A : StreamSync.streams (fst (add_all w calls st))
              = StreamSync.streams (fst st) ++ flat_map (stored w) calls
              /\ StreamSync.raw (fst (add_all w calls st))
                 = StreamSync.raw (fst st)
              /\ StreamSync.ref_stream (fst (add_all w calls st))
                 = StreamSync.ref_stream (fst st)
              /\ StreamSync.sfreq (fst (add_all w calls st))
                 = StreamSync.sfreq (fst st)).
  { revert st. induction calls as [|[[stream c] ev] calls IH]; intros st.
    - cbn. rewrite app_nil_r. repeat split.
    - unfold add_all in *. cbn [fold_left flat_map].
      destruct (IH (snd (StreamSync.add_stream w stream (PyInt c) ev st)))
        as (I1 & I2 & I3 & I4).
      rewrite I1, I2, I3, I4. clear IH I1 I2 I3 I4.
      destruct st as [self tr]. cbn [fst].
      pose proof (K stream c ev (self, tr)) as Kc.
      destruct (add_stream_stored w stream c ev self tr) as [tr' E].
      rewrite E in *.
      destruct (stored w (stream, c, ev)) as [|e l]; cbn [fst snd] in *.
      + repeat split.
      + destruct Kc as [e' Ke]. injection Ke as -> ->.
        cbn. rewrite <- app_assoc. repeat split. }
  destruct A as (A1 & A2 & A3 & A4).
  repeat split; assumption.
Qed.

(** The trace only grows, and by file reads only, in [__init__]. *)
Lemma init_trace (w : World) (reference_object pulse_channel : pyval)
      (tr : trace) :
  exists es,
    snd (StreamSync.__init__ w reference_object pulse_channel (tt, tr))
    = (tt, tr ++ es)
    /\ forallb reads_only es = true.
Proof.
  destruct reference_object as [|p|z];
    try (exists []; rewrite app_nil_r; split; reflexivity).
  2:{ run_py. destruct (z =? 0); exists []; rewrite app_nil_r; split; reflexivity. }
  run_py.
  destruct (p =? "")%string; cbn [negb];
    [exists []; rewrite app_nil_r; split; reflexivity|].
  destruct (fs_exists w (pathlib.path_str p)) as [[|]|e];
    [|eexists [_]; split; reflexivity|eexists [_]; split; reflexivity].
  destruct (pathlib.suffix p =? ".fif")%string;
    [|eexists [_]; split; reflexivity].
  destruct (read_raw_fif w p) as [r|e];
    [|eexists [_; _]; rewrite <- app_assoc; split; reflexivity].
  destruct pulse_channel as [|ch|z]; cbn [truthy];
    try (eexists [_; _]; rewrite <- app_assoc; split; reflexivity).
  2:{ destruct (z =? 0); eexists [_; _]; rewrite <- app_assoc;
      split; reflexivity. }
  destruct (ch =? "")%string; cbn [negb];
    [eexists [_; _]; rewrite <- app_assoc; split; reflexivity|].
  destruct (raw_getitem r ch) as [[d|]|e];
    try (eexists [_; _; _]; rewrite <- !app_assoc; split; reflexivity).
  eexists [_; _; _; _; _]; rewrite <- !app_assoc; split; reflexivity.
Qed.

(** C3, as stated, fails: a reference whose stimulus channel is flat (no
    pulse at all) builds a session; nothing is detected and nothing is
    raised, the channel is stored as read. *)
Lemma init_accepts_pulse_free_reference :
  StreamSync.__init__ Demo.world (PyStr "ref.fif") (PyStr "STI101") (tt, [])
  = (Ok Demo.session,
     (tt, [EExists "ref.fif"; EReadRawFif "ref.fif"; ERawGetItem "STI101";
           EReadRawFif "ref.fif"; ERawGetItem "STI101"]))
  /\ StreamSync.ref_stream Demo.session
     = Some {| rd_data := [[0; 0; 0; 0; 0; 0]%Q];
               rd_times := rd_times Demo.flat |}.
Proof. split; reflexivity. Qed.

(** C3, amended: [__init__] raises for every reference it checks as
    invalid and builds the object otherwise: it returns exactly when
    [reference_object] is a non-empty string naming an existing [.fif]
    file that loads and [pulse_channel] a non-empty string whose lookup
    gives data, and then the object holds the loaded recording, the
    channel as read (no pulse detection), the sampling frequency and an
    empty list of streams. *)
Theorem init_outcome
        (w : World) (reference_object pulse_channel : pyval) (tr : trace) :
  match fst (StreamSync.__init__ w reference_object pulse_channel (tt, tr)) with
  | Ok self =>
      exists r d,
        valid_reference w reference_object pulse_channel r d
        /\ self = {| StreamSync.raw := r;
                     StreamSync.ref_stream := Some d;
                     StreamSync.sfreq := raw_sfreq r;
                     StreamSync.streams := [] |}
  | Raise _ =>
      forall r d, ~ valid_reference w reference_object pulse_channel r d
  end.
Proof.
  unfold valid_reference.
  destruct reference_object as [|p|z].
  - intros r d (p & ch & H & _). discriminate H.
  - run_py.
    destruct (String.eqb_spec p "") as [P|P]; cbn [negb fst].
    { intros r d (p' & ch & H & N & _). injection H as <-. contradiction. }
    destruct (fs_exists w (pathlib.path_str p)) as [[|]|e] eqn:X; cbn [fst].
    2,3: intros r d (p' & ch & H & _ & X' & _); injection H as <-; congruence.
    destruct (String.eqb_spec (pathlib.suffix p) ".fif") as [F|F]; cbn [fst].
    2:{ intros r d (p' & ch & H & _ & _ & F' & _). injection H as <-.
        contradiction. }
    destruct (read_raw_fif w p) as [r|e] eqn:R; cbn [fst].
    2:{ intros r d (p' & ch & H & _ & _ & _ & R' & _). injection H as <-.
        congruence. }
    destruct pulse_channel as [|ch|z]; cbn [truthy fst].
    + intros r' d (p' & ch & _ & _ & _ & _ & _ & H & _). discriminate H.
    + destruct (String.eqb_spec ch "") as [C|C]; cbn [negb fst].
      { intros r' d (p' & ch' & _ & _ & _ & _ & _ & H & N & _).
        injection H as <-. contradiction. }
      destruct (raw_getitem r ch) as [[d|]|e] eqn:G; cbn [fst].
      * exists r, d. split; [|reflexivity].
        exists p, ch. repeat split; auto.
      * intros r' d (p' & ch' & H & _ & _ & _ & R' & H' & _ & G').
        injection H as <-. injection H' as <-. congruence.
      * intros r' d (p' & ch' & H & _ & _ & _ & R' & H' & _ & G').
        injection H as <-. injection H' as <-. congruence.
    + destruct (z =? 0); cbn [negb fst];
        intros r' d (p' & ch & _ & _ & _ & _ & _ & H & _); discriminate H.
  - run_py. destruct (z =? 0); cbn [negb fst];
      intros r d (p & ch & H & _); discriminate H.
Qed.

(** C6, as stated, fails: the session takes paths, not signals, and
    reads the files they name: [add_stream] decodes the WAV file, and
    [__init__] tests the reference path, parses the FIF file twice and
    reads the pulse channel from it. *)
Lemma session_reads_and_parses_files :
  snd (snd (StreamSync.add_stream Demo.world (PyStr "a.wav") (PyInt 0) PyNone
              (Demo.session, [])))
  = [EWavRead "a.wav"]
  /\ snd (snd (StreamSync.__init__ Demo.world (PyStr "ref.fif")
                 (PyStr "STI101") (tt, [])))
     = [EExists "ref.fif"; EReadRawFif "ref.fif"; ERawGetItem "STI101";
        EReadRawFif "ref.fif"; ERawGetItem "STI101"].
Proof. split; reflexivity. Qed.

(** C6, amended: the operations of the session read and parse the files
    they are given by path and nothing more: every effect of [__init__]
    and of [add_stream] is a look at, or a read of, a file; [do_syncing]
    has no effect; none of the three creates or writes a file or a
    directory. *)
Theorem session_effects_are_reads (w : World) :
  (forall reference_object pulse_channel tr,
      exists es,
        snd (StreamSync.__init__ w reference_object pulse_channel (tt, tr))
        = (tt, tr ++ es)
        /\ forallb reads_only es = true)
  /\ (forall stream channel events self tr,
         exists es,
           snd (snd (StreamSync.add_stream w stream channel events (self, tr)))
           = tr ++ es
           /\ forallb reads_only es = true)
  /\ (forall st, snd (StreamSync.do_syncing st) = st).
Proof.
  split; [|split].
  - intros. apply init_trace.
  - intros. apply add_stream_trace.
  - reflexivity.
Qed.

(** [extract_audio_from_video], outside the session, is what creates a
    directory and has a file written. *)
Example extract_audio_effects :
  extract_audio_from_video Demo.world (PyStr "talk.mp4") (PyStr "out/")
    (tt, [])
  = (Ok tt,
     (tt, [EExists "talk.mp4"; EExists "out/talk_16bit.wav"; EMkdir "out";
           ESubprocess ["ffmpeg"; "-acodec"; "pcm_s24le"; "-i"; "talk.mp4";
                        "-map"; "0:a"; "-acodec"; "pcm_s16le"; "-ac"; "2";
                        "-y"; "-vn"; "-loglevel"; "error";
                        "out//talk_16bit.wav"];
           EPrint "Audio extraction was successful for talk.mp4"])).
Proof. reflexivity. Qed.

(** * Properties of the specified engine *)

Module SpecFacts.

Import Spec.
Local Open Scope Q_scope.

Example square_wave_has_three_onsets :
  detect Demo.detector Demo.square
  = Returns (onsets Demo.detector Demo.square)
  /\ List.length (onsets Demo.detector Demo.square) = 3%nat.
Proof. split; reflexivity. Qed.

Example silence_has_no_pulse :
  detect Demo.detector Demo.silence = Fails NoPulsesFoundError.
Proof. reflexivity. Qed.

Lemma in_drift_bound_spec (cfg : EstimatorConfig) (scale : Q) :
  in_drift_bound cfg scale = true <->
  drift_low cfg <= scale /\ scale <= drift_high cfg.
Proof.
  unfold in_drift_bound. rewrite andb_true_iff, !Qle_bool_iff. tauto.
Qed.

(** An accepted warp of [fit] is the robust fit, within the bound. *)
Lemma fit_accepted (cfg : EstimatorConfig) (ms : list PulseMatch)
      (r : FitResult) (w : TimeWarp) :
  fit cfg ms = Returns r -> fr_warp r = Some w ->
  w = fst (robust_fit cfg ms)
  /\ in_drift_bound cfg (a w) = true
  /\ fr_label r <> Failed.
Proof.
  unfold fit. destruct (Nat.ltb _ _); [discriminate|].
  destruct (robust_fit cfg ms) as [w0 used]. cbn [fst].
  destruct (in_drift_bound cfg (a w0)) eqn:B.
  - destruct (label_of cfg (residual_variance w0 used) (List.length used)) eqn:L;
      intros H; injection H as <-; cbn [fr_warp fr_label]; intros H;
      try discriminate H; injection H as <-; repeat split; auto; discriminate.
  - intros H; injection H as <-; cbn [fr_warp]. discriminate.
Qed.

Lemma store_keeps (P : SyncResult -> Prop) (r : SyncResult)
      (rs : list SyncResult) :
  P r -> Forall P rs -> Forall P (store r rs).
Proof.
  intros Hr Hrs. induction Hrs as [|r0 rest H0 Hrest IH]; cbn [store].
  - constructor; [exact Hr|constructor].
  - destruct (stream_id r0 =? stream_id r)%string;
      constructor; assumption.
Qed.

Lemma align_drift_checked
      (match_trains : PulseTrain -> PulseTrain -> outcome (Z * list PulseMatch))
      (dcfg : DetectorConfig) (ecfg : EstimatorConfig)
      (s : Session) (stream : SecondaryStream) :
  drift_checked ecfg (align match_trains dcfg ecfg s stream).
Proof.
  unfold align, drift_checked.
  destruct (detect dcfg (pulse_signal stream)) as [train|e];
    [|cbn; discriminate].
  destruct (match_trains (reference_train s) train) as [[off ms]|e];
    [|cbn; discriminate].
  destruct (fit ecfg ms) as [r|e] eqn:F; [|cbn; discriminate].
  cbn [warp confidence_label]. intros w H.
  destruct (fit_accepted ecfg ms r w F H) as (_ & B & L).
  split; [apply in_drift_bound_spec; exact B|exact L].
Qed.

(** C4: [detect] fails with [NoPulsesFoundError] exactly when fewer than
    two onsets are found in the signal, it fails in no other way, and
    with two onsets or more it returns them as the pulse train. *)
Theorem detect_fails_iff_fewer_than_two_onsets
        (cfg : DetectorConfig) (s : Signal) :
  (detect cfg s = Fails NoPulsesFoundError
   <-> (List.length (onsets cfg s) < 2)%nat)
  /\ ((2 <= List.length (onsets cfg s))%nat
      -> detect cfg s = Returns (onsets cfg s))
  /\ (forall e, detect cfg s = Fails e -> e = NoPulsesFoundError).
Proof.
  unfold detect.
  destruct (Nat.ltb_spec (List.length (onsets cfg s)) 2) as [H|H].
  - split; [tauto|]. split; [lia|]. intros e E. congruence.
  - split; [|split].
    + split; [discriminate|lia].
    + reflexivity.
    + discriminate.
Qed.

Lemma detect_fails_iff_fewer_than_two_onsets_witness :
  (2 <= List.length (onsets Demo.detector Demo.square))%nat
  /\ detect Demo.detector Demo.square
     = Returns (onsets Demo.detector Demo.square)
  /\ (List.length (onsets Demo.detector Demo.silence) < 2)%nat
  /\ detect Demo.detector Demo.silence = Fails NoPulsesFoundError.
Proof.
  assert (H2 : (2 <= List.length (onsets Demo.detector Demo.square))%nat)
    by (vm_compute; lia).
  assert (H0 : (List.length (onsets Demo.detector Demo.silence) < 2)%nat)
    by (vm_compute; lia).
  refine (conj H2 (conj _ (conj H0 _))).
  - exact (proj1 (proj2 (detect_fails_iff_fewer_than_two_onsets
                           Demo.detector Demo.square)) H2).
  - exact (proj2 (proj1 (detect_fails_iff_fewer_than_two_onsets
                           Demo.detector Demo.silence)) H0).
Defined.

(** C5: [project] is the affine map a * t + b, defined for every warp
    and every time, and the difference of two projections is a times
    the difference of the times (exactly, over the rationals). *)
Theorem project_is_affine (w : TimeWarp) (t1 t2 : Q) :
  project w t1 == a w * t1 + b w
  /\ project w t1 - project w t2 == a w * (t1 - t2).
Proof. unfold project. split; ring. Qed.

(** C7: a warp that [fit] accepts has its scale within the drift bound;
    a fitted scale outside the bound makes [fit] return, not fail, a
    result labelled failed and without warp; and in every session that
    [set_reference] and [add_stream] build, each accepted warp of the
    results lies within the bound. *)
Theorem accepted_warps_are_within_drift_bound
        (match_trains : PulseTrain -> PulseTrain -> outcome (Z * list PulseMatch))
        (dcfg : DetectorConfig) (ecfg : EstimatorConfig) :
  (forall ms r w,
      fit ecfg ms = Returns r -> fr_warp r = Some w ->
      drift_low ecfg <= a w /\ a w <= drift_high ecfg)
  /\ (forall ms,
         (min_matches ecfg <= List.length ms)%nat ->
         in_drift_bound ecfg (a (fst (robust_fit ecfg ms))) = false ->
         exists r, fit ecfg ms = Returns r
                   /\ fr_label r = Failed /\ fr_warp r = None)
  /\ (forall s,
         reachable match_trains dcfg ecfg s ->
         Forall (drift_checked ecfg) (results s)).
Proof.
  split; [|split].
  - intros ms r w F H. apply in_drift_bound_spec.
    apply (fit_accepted ecfg ms r w F H).
  - intros ms Hn B. unfold fit.
    destruct (Nat.ltb_spec (List.length ms) (min_matches ecfg)) as [L|_];
      [lia|].
    destruct (robust_fit ecfg ms) as [w0 used]. cbn [fst] in B. rewrite B.
    eexists. split; [reflexivity|]. split; reflexivity.
  - intros s R. induction R as [signal s H|s stream R IH].
    + unfold set_reference in H.
      destruct (detect dcfg signal); [|discriminate].
      injection H as <-. constructor.
    + cbn [add_stream snd results].
      apply store_keeps; [apply align_drift_checked|exact IH].
Qed.

Lemma accepted_warps_are_within_drift_bound_witness :
  let s0 := {| reference_train := onsets Demo.detector Demo.square;
               results := [] |} in
  let s1 := snd (add_stream Demo.matcher Demo.detector Demo.estimator s0
                   (mkSecondaryStream "cam1" Demo.square)) in
  let s2 := snd (add_stream Demo.matcher Demo.detector Demo.estimator s1
                   (mkSecondaryStream "cam2" Demo.silence)) in
  reachable Demo.matcher Demo.detector Demo.estimator s2
  /\ map confidence_label (results s2) = [High; Failed]
  /\ Forall (drift_checked Demo.estimator) (results s2)
  /\ (exists r, fit Demo.estimator Demo.doubled = Returns r
                /\ fr_label r = Failed /\ fr_warp r = None)
  /\ (let r := mkFitResult (Some (mkTimeWarp (6 # 6) (0 # 18))) 3
                           (0 # 4760622968832) High in
      fit Demo.estimator (Demo.pair_up 0 [1; 2; 3] [1; 2; 3]) = Returns r
      /\ fr_warp r = Some (mkTimeWarp (6 # 6) (0 # 18))
      /\ 9 # 10 <= 6 # 6 /\ 6 # 6 <= 11 # 10).
Proof.
  intros s0 s1 s2.
  assert (R : reachable Demo.matcher Demo.detector Demo.estimator s2).
  { apply reach_add. apply reach_add.
    apply (reach_reference Demo.matcher Demo.detector Demo.estimator
             Demo.square).
    reflexivity. }
  pose proof (accepted_warps_are_within_drift_bound
                Demo.matcher Demo.detector Demo.estimator) as (A & O & I).
  refine (conj R (conj _ (conj (I s2 R) (conj (O Demo.doubled _ _) _)))).
  - reflexivity.
  - vm_compute. lia.
  - reflexivity.
  - intros r.
    assert (F : fit Demo.estimator (Demo.pair_up 0 [1; 2; 3] [1; 2; 3])
                = Returns r) by reflexivity.
    refine (conj F (conj eq_refl _)).
    exact (A _ r (mkTimeWarp (6 # 6) (0 # 18)) F eq_refl).
Defined.

End SpecFacts.

(** * Further properties of the source *)

(** ** Strings and paths *)

Lemma length_app (a b : string) :
  String.length (a ++ b) = (String.length a + String.length b)%nat.
Proof. induction a as [|c a IH]; simpl; [reflexivity|rewrite IH; reflexivity]. Qed.

Lemma contains_app (c : ascii) (a b : string) :
  contains c (a ++ b) = contains c a || contains c b.
Proof.
  induction a as [|d a IH]; simpl; [reflexivity|].
  rewrite IH, orb_assoc. reflexivity.
Qed.

Lemma contains_substring (c : ascii) (s : string) (n m : nat) :
  contains c s = false -> contains c (substring n m s) = false.
Proof.
  revert n m. induction s as [|d s IH]; intros n m H.
  - destruct n, m; reflexivity.
  - simpl in H. apply orb_false_iff in H as [Hd Hs].
    destruct n as [|n].
    + destruct m as [|m]; simpl; [reflexivity|].
      rewrite Hd, (IH 0%nat m Hs). reflexivity.
    + simpl. apply IH, Hs.
Qed.

Lemma split_on_not_nil (sep : ascii) (s : string) :
  pathlib.split_on sep s <> [].
Proof.
  destruct s as [|c s]; simpl; [discriminate|].
  destruct (Ascii.eqb c sep); [discriminate|].
  destruct (pathlib.split_on sep s); discriminate.
Qed.

Lemma split_on_whole (sep : ascii) (s : string) :
  contains sep s = false -> pathlib.split_on sep s = [s].
Proof.
  induction s as [|c s IH]; simpl; intros H; [reflexivity|].
  apply orb_false_iff in H as [Hc Hs].
  rewrite Hc, (IH Hs). reflexivity.
Qed.

Lemma split_on_app (sep : ascii) (a b : string) :
  pathlib.split_on sep (a ++ String sep b)
  = pathlib.split_on sep a ++ pathlib.split_on sep b.
Proof.
  induction a as [|c a IH]; simpl.
  - rewrite Ascii.eqb_refl. reflexivity.
  - destruct (Ascii.eqb c sep); rewrite IH; [reflexivity|].
    pose proof (split_on_not_nil sep a) as N.
    destruct (pathlib.split_on sep a) as [|h t]; [contradiction|reflexivity].
Qed.

Lemma split_on_pieces (sep : ascii) (s : string) :
  Forall (fun x => contains sep x = false) (pathlib.split_on sep s).
Proof.
  induction s as [|c s IH]; simpl.
  - constructor; [reflexivity|constructor].
  - destruct (Ascii.eqb c sep) eqn:E.
    + constructor; [reflexivity|exact IH].
    + destruct (pathlib.split_on sep s) as [|h t].
      * constructor; [simpl; rewrite E; reflexivity|constructor].
      * inversion IH as [|? ? Hh Ht]; subst.
        constructor; [simpl; rewrite E, Hh; reflexivity|exact Ht].
Qed.

Lemma parts_app (a b : string) :
  pathlib.parts (a ++ "/" ++ b) = pathlib.parts a ++ pathlib.parts b.
Proof.
  unfold pathlib.parts. change ("/" ++ b)%string with (String "/" b).
  rewrite split_on_app, filter_app. reflexivity.
Qed.

Lemma parts_single (f : string) :
  contains "/" f = false -> f <> "" -> f <> "." -> pathlib.parts f = [f].
Proof.
  intros H N D. unfold pathlib.parts. rewrite (split_on_whole "/" f H).
  simpl. destruct (String.eqb_spec f ""); [contradiction|].
  destruct (String.eqb_spec f "."); [contradiction|]. reflexivity.
Qed.

Lemma name_no_slash (s : string) : contains "/" (pathlib.name s) = false.
Proof.
  unfold pathlib.name, pathlib.parts.
  pose proof (split_on_pieces "/" s) as F.
  induction F as [|x l Hx Hl IH]; simpl; [reflexivity|].
  destruct (negb (x =? "")%string && negb (x =? ".")%string); [|exact IH].
  simpl. destruct (filter _ l) eqn:E; [exact Hx|exact IH].
Qed.

Lemma stem_no_slash (s : string) : contains "/" (pathlib.stem s) = false.
Proof.
  unfold pathlib.stem. pose proof (name_no_slash s) as H.
  destruct (pathlib.rfind "." (pathlib.name s)) as [i|]; [|exact H].
  destruct (_ && _)%bool; [|exact H].
  apply contains_substring, H.
Qed.

Lemma rfind_app (c : ascii) (a b : string) :
  pathlib.rfind c (a ++ b)
  = match pathlib.rfind c b with
    | Some i => Some (String.length a + i)%nat
    | None => pathlib.rfind c a
    end.
Proof.
  induction a as [|d a IH]; simpl.
  - destruct (pathlib.rfind c b); reflexivity.
  - rewrite IH. destruct (pathlib.rfind c b); reflexivity.
Qed.

Lemma substring_skip (a b : string) (n m : nat) :
  substring (String.length a + n) m (a ++ b) = substring n m b.
Proof. induction a as [|d a IH]; simpl; [reflexivity|exact IH]. Qed.

Lemma audio_file_suffix (p : string) :
  pathlib.suffix_of_name (audio_file p) = ".wav".
Proof.
  unfold pathlib.suffix_of_name, audio_file, audio_suffix.
  change ("_16bit" ++ ".wav")%string with "_16bit.wav".
  rewrite rfind_app, length_app.
  change (pathlib.rfind "." "_16bit.wav") with (Some 6%nat).
  change (String.length "_16bit.wav") with 10%nat.
  set (n := String.length (pathlib.stem p)).
  assert (E1 : Nat.ltb 0 (n + 6) = true) by (apply Nat.ltb_lt; lia).
  assert (E2 : Nat.ltb (n + 6) (n + 10 - 1) = true) by (apply Nat.ltb_lt; lia).
  assert (E3 : (n + 10 - (n + 6) = 4)%nat) by lia.
  cbv beta iota. rewrite E1, E2, E3. subst n.
  cbn [andb]. rewrite substring_skip. reflexivity.
Qed.

Lemma audio_file_plain (p : string) :
  contains "/" (audio_file p) = false
  /\ audio_file p <> "" /\ audio_file p <> ".".
Proof.
  assert (L : (10 <= String.length (audio_file p))%nat).
  { unfold audio_file, audio_suffix. rewrite !length_app. simpl. lia. }
  split; [|split].
  - unfold audio_file, audio_suffix.
    rewrite !contains_app, stem_no_slash. reflexivity.
  - intros E. rewrite E in L. simpl in L. lia.
  - intros E. rewrite E in L. simpl in L. lia.
Qed.

Lemma parts_audio_file (p : string) :
  pathlib.parts (audio_file p) = [audio_file p].
Proof.
  destruct (audio_file_plain p) as (H & N & D). apply parts_single; assumption.
Qed.

Lemma output_path_name (p od : string) :
  pathlib.name (output_path p od) = audio_file p.
Proof.
  unfold pathlib.name, output_path.
  rewrite parts_app, parts_audio_file. apply last_last.
Qed.

(** [extract_audio_from_video], step by step. *)
Lemma extract_audio_run (w : World) (path_to_video output_dir : pyval)
      (tr : trace) :
  extract_audio_from_video w path_to_video output_dir (tt, tr) =
  match path_to_video with
  | PyStr p =>
      let e1 := EExists (pathlib.path_str p) in
      match fs_exists w (pathlib.path_str p) with
      | Raise e => (Raise e, (tt, tr ++ [e1]))
      | Ok false => (Raise ValueError, (tt, tr ++ [e1]))
      | Ok true =>
        match output_dir with
        | PyStr od =>
            let target := pathlib.path_str (pathlib.join od (audio_file p)) in
            let e2 := EExists target in
            let e3 := EMkdir (pathlib.path_str od) in
            let cmd := ffmpeg_command p (output_path p od) in
            match fs_exists w target with
            | Raise e => (Raise e, (tt, tr ++ [e1; e2]))
            | Ok true => (Raise PlainException, (tt, tr ++ [e1; e2]))
            | Ok false =>
              match fs_mkdir w (pathlib.path_str od) with
              | Raise e => (Raise e, (tt, tr ++ [e1; e2; e3]))
              | Ok _ =>
                  match subprocess_run w cmd with
                  | Raise e =>
                      (Raise e, (tt, tr ++ [e1; e2; e3; ESubprocess cmd]))
                  | Ok rc =>
                      (Ok tt,
                       (tt, tr ++ [e1; e2; e3; ESubprocess cmd;
                                   EPrint
                                     (if rc =? 0
                                      then ("Audio extraction was successful for "
                                            ++ p)%string
                                      else ("Audio extraction unsuccessful for "
                                            ++ p)%string)]))
                  end
              end
            end
        | _ => (Raise TypeError, (tt, tr ++ [e1]))
        end
      end
  | _ => (Raise TypeError, (tt, tr))
  end.
Proof.
  destruct path_to_video as [|p|z]; try reflexivity.
  unfold extract_audio_from_video, path_exists, call_mkdir,
    call_subprocess_run, print, to_path, log, bind, ret, raise, modify,
    lift_result.
  cbn -[pathlib.path_str pathlib.join pathlib.stem ffmpeg_command String.append].
  fold (audio_file p).
  destruct (fs_exists w (pathlib.path_str p)) as [[|]|e]; try reflexivity.
  destruct output_dir as [|od|z]; try reflexivity.
  cbn -[pathlib.path_str pathlib.join pathlib.stem ffmpeg_command String.append].
  fold (audio_file p). fold (output_path p od).
  destruct (fs_exists w (pathlib.path_str (pathlib.join od (audio_file p))))
    as [[|]|e];
    cbn -[pathlib.path_str pathlib.join pathlib.stem ffmpeg_command
          String.append];
    try (rewrite <- app_assoc; reflexivity).
  destruct (fs_mkdir w (pathlib.path_str od)) as [[]|e];
    cbn -[pathlib.path_str pathlib.join pathlib.stem ffmpeg_command
          String.append];
    [|rewrite <- !app_assoc; reflexivity].
  destruct (subprocess_run w (ffmpeg_command p (output_path p od))) as [rc|e];
    cbn -[pathlib.path_str pathlib.join pathlib.stem ffmpeg_command
          String.append];
    [|rewrite <- !app_assoc; reflexivity].
  destruct (rc =? 0);
    cbn -[pathlib.path_str pathlib.join pathlib.stem ffmpeg_command
          String.append];
    rewrite <- !app_assoc; reflexivity.
Qed.

(** ** [extract_audio_from_video] *)

(** X1: when [p.exists()] does not return [True] for the video path,
    [extract_audio_from_video] raises after that one test, whatever
    [output_dir] is (even one that is no path): [ValueError] when the
    test returned [False], and the [OSError] of the test itself when it
    raised; nothing is created and ffmpeg is not run. *)
Theorem extract_audio_missing_video
        (w : World) (p : string) (output_dir : pyval) (tr : trace) :
  fs_exists w (pathlib.path_str p) <> Ok true ->
  extract_audio_from_video w (PyStr p) output_dir (tt, tr)
  = (Raise (match fs_exists w (pathlib.path_str p) with
            | Raise e => e
            | Ok _ => ValueError
            end),
     (tt, tr ++ [EExists (pathlib.path_str p)])).
Proof.
  intros H. rewrite extract_audio_run. cbv zeta.
  destruct (fs_exists w (pathlib.path_str p)) as [[|]|e]; try reflexivity.
  contradiction H. reflexivity.
Qed.

Lemma extract_audio_missing_video_witness :
  fs_exists Studio.world (pathlib.path_str "lost.mp4") <> Ok true
  /\ extract_audio_from_video Studio.world (PyStr "lost.mp4") PyNone (tt, [])
     = (Raise ValueError, (tt, [EExists "lost.mp4"]))
  /\ fs_exists Studio.world (pathlib.path_str "locked/clip.mp4") <> Ok true
  /\ extract_audio_from_video Studio.world (PyStr "locked/clip.mp4")
       (PyStr "out") (tt, [])
     = (Raise (LibError "PermissionError"), (tt, [EExists "locked/clip.mp4"])).
Proof.
  assert (H1 : fs_exists Studio.world (pathlib.path_str "lost.mp4") <> Ok true)
    by (vm_compute; discriminate).
  assert (H2 : fs_exists Studio.world (pathlib.path_str "locked/clip.mp4")
               <> Ok true)
    by (vm_compute; discriminate).
  refine (conj H1 (conj _ (conj H2 _))).
  - exact (extract_audio_missing_video Studio.world "lost.mp4" PyNone [] H1).
  - exact (extract_audio_missing_video Studio.world "locked/clip.mp4"
             (PyStr "out") [] H2).
Defined.

(** X2: when the audio file of the video is already in the output
    directory, [extract_audio_from_video] raises the plain [Exception]
    after the two existence tests: the directory is not created and
    ffmpeg is not run. *)
Theorem extract_audio_refuses_existing_audio
        (w : World) (p od : string) (tr : trace) :
  fs_exists w (pathlib.path_str p) = Ok true ->
  fs_exists w (pathlib.path_str (pathlib.join od (audio_file p))) = Ok true ->
  extract_audio_from_video w (PyStr p) (PyStr od) (tt, tr)
  = (Raise PlainException,
     (tt, tr ++ [EExists (pathlib.path_str p);
                 EExists (pathlib.path_str
                            (pathlib.join od (audio_file p)))])).
Proof. intros H1 H2. rewrite extract_audio_run, H1. cbv zeta. rewrite H2. reflexivity. Qed.

Lemma extract_audio_refuses_existing_audio_witness :
  fs_exists Studio.world (pathlib.path_str "talk.mp4") = Ok true
  /\ fs_exists Studio.world
       (pathlib.path_str (pathlib.join "out" (audio_file "talk.mp4"))) = Ok true
  /\ extract_audio_from_video Studio.world (PyStr "talk.mp4") (PyStr "out")
       (tt, [])
     = (Raise PlainException,
        (tt, [EExists "talk.mp4"; EExists "out/talk_16bit.wav"])).
Proof.
  refine (conj eq_refl (conj eq_refl _)).
  exact (extract_audio_refuses_existing_audio Studio.world "talk.mp4" "out" []
           eq_refl eq_refl).
Defined.



(** X4: ffmpeg is run only for a video that exists and whose audio is
    not yet in the output directory, only after the directory was made,
    and only with the command built for that video and that directory:
    an effect [ESubprocess] in a run started on the empty trace implies
    all of this. *)
Theorem extract_audio_runs_ffmpeg_only_when_guarded
        (w : World) (path_to_video output_dir : pyval) (cmd : list string) :
  In (ESubprocess cmd)
     (snd (snd (extract_audio_from_video w path_to_video output_dir (tt, [])))) ->
  exists p od,
    path_to_video = PyStr p /\ output_dir = PyStr od
    /\ fs_exists w (pathlib.path_str p) = Ok true
    /\ fs_exists w (pathlib.path_str (pathlib.join od (audio_file p))) = Ok false
    /\ fs_mkdir w (pathlib.path_str od) = Ok tt
    /\ cmd = ffmpeg_command p (output_path p od).
Proof.
  rewrite extract_audio_run.
  destruct path_to_video as [|p|z]; try (simpl; tauto).
  cbv zeta.
  destruct (fs_exists w (pathlib.path_str p)) as [[|]|e] eqn:H1.
  2,3: simpl; intros [H|[]]; discriminate H.
  destruct output_dir as [|od|z].
  1,3: simpl; intros [H|[]]; discriminate H.
  destruct (fs_exists w (pathlib.path_str (pathlib.join od (audio_file p))))
    as [[|]|e] eqn:H2.
  1,3: simpl; intros [H|[H|[]]]; discriminate H.
  destruct (fs_mkdir w (pathlib.path_str od)) as [[]|e] eqn:H3.
  2:{ simpl. intros [H|[H|[H|[]]]]; discriminate H. }
  assert (K : forall l,
             In (ESubprocess cmd)
                ([EExists (pathlib.path_str p);
                  EExists (pathlib.path_str (pathlib.join od (audio_file p)));
                  EMkdir (pathlib.path_str od);
                  ESubprocess (ffmpeg_command p (output_path p od))] ++ l) ->
             (forall x, In x l -> exists t, x = EPrint t) ->
             cmd = ffmpeg_command p (output_path p od)).
  { intros l [H|[H|[H|[H|H]]]] Hl; try discriminate H.
    - injection H as <-. reflexivity.
    - destruct (Hl _ H) as [t E]. discriminate E. }
  intros H. exists p, od. repeat split; auto.
  destruct (subprocess_run w (ffmpeg_command p (output_path p od))) as [rc|e].
  - apply (K [EPrint (if rc =? 0
                      then ("Audio extraction was successful for " ++ p)%string
                      else ("Audio extraction unsuccessful for " ++ p)%string)]).
    + exact H.
    + intros x [<-|[]]. eexists. reflexivity.
  - apply (K []); [rewrite app_nil_r; exact H|intros x []].
Qed.

Lemma extract_audio_runs_ffmpeg_only_when_guarded_witness :
  In (ESubprocess (ffmpeg_command "new.mp4" "out//new_16bit.wav"))
     (snd (snd (extract_audio_from_video Studio.world (PyStr "new.mp4")
                  (PyStr "out/") (tt, []))))
  /\ exists p od,
      PyStr "new.mp4" = PyStr p /\ PyStr "out/" = PyStr od
      /\ fs_exists Studio.world (pathlib.path_str p) = Ok true
      /\ fs_exists Studio.world
           (pathlib.path_str (pathlib.join od (audio_file p))) = Ok false
      /\ fs_mkdir Studio.world (pathlib.path_str od) = Ok tt
      /\ ffmpeg_command "new.mp4" "out//new_16bit.wav"
         = ffmpeg_command p (output_path p od).
Proof.
  assert (H : In (ESubprocess (ffmpeg_command "new.mp4" "out//new_16bit.wav"))
                 (snd (snd (extract_audio_from_video Studio.world
                              (PyStr "new.mp4") (PyStr "out/") (tt, [])))))
    by (vm_compute; tauto).
  split; [exact H|].
  exact (extract_audio_runs_ffmpeg_only_when_guarded Studio.world
           (PyStr "new.mp4") (PyStr "out/") _ H).
Defined.

(** X5: the file [extract_audio_from_video] has ffmpeg write is a stream
    that [add_stream] takes: whatever the video and the directory, the
    output path has the suffix [.wav], so that
    [_extract_data_from_stream] goes on to decode it instead of raising
    [TypeError]. *)
Theorem extracted_audio_is_a_wav_stream
        (w : World) (p od : string) (channel : pyval)
        (st : StreamSync.state) :
  pathlib.suffix (output_path p od) = ".wav"
  /\ StreamSync._extract_data_from_stream w (PyStr (output_path p od))
       channel st
     = StreamSync._extract_data_from_wav w (output_path p od) channel st.
Proof.
  assert (S : pathlib.suffix (output_path p od) = ".wav").
  { unfold pathlib.suffix. rewrite output_path_name. apply audio_file_suffix. }
  split; [exact S|].
  unfold StreamSync._extract_data_from_stream, to_path, bind, ret.
  rewrite S. reflexivity.
Qed.

Lemma root_relative (c : ascii) (s : string) :
  c <> "/"%char -> pathlib.root (String c s) = "".
Proof.
  intros N. destruct c as [[] [] [] [] [] [] [] []]; try reflexivity.
  contradiction N. reflexivity.
Qed.

Lemma root_single (c : ascii) (s : string) :
  c <> "/"%char -> pathlib.root (String "/" (String c s)) = "/".
Proof.
  intros N. destruct c as [[] [] [] [] [] [] [] []]; try reflexivity.
  contradiction N. reflexivity.
Qed.

Lemma root_double (c : ascii) (s : string) :
  c <> "/"%char -> pathlib.root (String "/" (String "/" (String c s))) = "//".
Proof.
  intros N. destruct c as [[] [] [] [] [] [] [] []]; try reflexivity.
  contradiction N. reflexivity.
Qed.

(** A string that ends with [c] is some string followed by [c]. *)
Lemma rfind_last (c : ascii) (s : string) (i : nat) :
  pathlib.rfind c s = Some i -> S i = String.length s ->
  exists s', s = (s' ++ String c "")%string.
Proof.
  revert i. induction s as [|d s IH]; intros i H L; [discriminate H|].
  simpl in H, L. destruct (pathlib.rfind c s) as [j|] eqn:R.
  - injection H as <-. injection L as L.
    destruct (IH j eq_refl L) as [s' ->]. exists (String d s'). reflexivity.
  - destruct (Ascii.eqb_spec d c) as [->|N]; [|discriminate H].
    injection H as <-. destruct s; [|discriminate L].
    exists "". reflexivity.
Qed.

Lemma app_assoc_str (a b c : string) :
  ((a ++ b) ++ c = a ++ (b ++ c))%string.
Proof. induction a as [|d a IH]; simpl; [reflexivity|rewrite IH; reflexivity]. Qed.

(** The root of a path is read off its first three characters. *)
Lemma root_of_dir (od' x y : string) :
  od' <> "" -> od' <> "/" ->
  pathlib.root (od' ++ "/" ++ x) = pathlib.root (od' ++ "/" ++ y).
Proof.
  intros N1 N2. destruct od' as [|a r]; [contradiction|].
  destruct (Ascii.eqb_spec a "/") as [->|Na].
  2:{ cbn [append]. rewrite !root_relative by exact Na. reflexivity. }
  destruct r as [|b r]; [contradiction|].
  destruct (Ascii.eqb_spec b "/") as [->|Nb].
  2:{ cbn [append]. rewrite !root_single by exact Nb. reflexivity. }
  destruct r as [|c r]; [reflexivity|].
  destruct (Ascii.eqb_spec c "/") as [->|Nc]; [reflexivity|].
  cbn [append]. rewrite !root_double by exact Nc. reflexivity.
Qed.

Lemma path_str_eq (s t : string) :
  pathlib.root s = pathlib.root t -> pathlib.parts s = pathlib.parts t ->
  pathlib.path_str s = pathlib.path_str t.
Proof. unfold pathlib.path_str. intros -> ->. reflexivity. Qed.

(** X6: for an output directory other than the empty string, ["/"] and
    ["//"], the path that [extract_audio_from_video] tests for an
    existing audio file and the path it hands to ffmpeg name the same
    file: they are equal as [pathlib] normalises them. *)
Theorem extract_audio_tests_the_path_it_writes (p od : string) :
  od <> "" -> od <> "/" -> od <> "//" ->
  pathlib.path_str (pathlib.join od (audio_file p))
  = pathlib.path_str (output_path p od).
Proof.
  intros N0 N1 N2. unfold output_path.
  destruct (audio_file_plain p) as (Hs & Hn & _).
  assert (J : pathlib.join od (audio_file p)
              = match pathlib.rfind "/" od with
                | Some i =>
                    if Nat.eqb (S i) (String.length od)
                    then (od ++ audio_file p)%string
                    else (od ++ "/" ++ audio_file p)%string
                | None => (od ++ "/" ++ audio_file p)%string
                end).
  { unfold pathlib.join. destruct (audio_file p) as [|c f]; [contradiction|].
    simpl in Hs. apply orb_false_iff in Hs as [Hc _].
    destruct (String.eqb_spec od "") as [E|_]; [contradiction|].
    destruct c as [[] [] [] [] [] [] [] []]; try reflexivity.
    discriminate Hc. }
  rewrite J. clear J.
  destruct (pathlib.rfind "/" od) as [i|] eqn:R; [|reflexivity].
  destruct (Nat.eqb_spec (S i) (String.length od)) as [L|_]; [|reflexivity].
  destruct (rfind_last "/" od i R L) as [od' ->].
  rewrite !app_assoc_str.
  assert (M1 : od' <> "") by (intros ->; apply N1; reflexivity).
  assert (M2 : od' <> "/") by (intros ->; apply N2; reflexivity).
  apply path_str_eq.
  - change (String "/" "" ++ audio_file p)%string
      with ("/" ++ audio_file p)%string.
    apply root_of_dir; assumption.
  - change (String "/" "" ++ audio_file p)%string
      with ("/" ++ audio_file p)%string.
    change (String "/" "" ++ "/" ++ audio_file p)%string
      with ("/" ++ ("" ++ "/" ++ audio_file p))%string.
    rewrite !parts_app. reflexivity.
Qed.

Lemma extract_audio_tests_the_path_it_writes_witness :
  "out/" <> "" /\ "out/" <> "/" /\ "out/" <> "//"
  /\ pathlib.path_str (pathlib.join "out/" (audio_file "new.mp4"))
     = pathlib.path_str (output_path "new.mp4" "out/").
Proof.
  assert (N0 : "out/" <> "") by discriminate.
  assert (N1 : "out/" <> "/") by discriminate.
  assert (N2 : "out/" <> "//") by discriminate.
  refine (conj N0 (conj N1 (conj N2 _))).
  exact (extract_audio_tests_the_path_it_writes "new.mp4" "out/" N0 N1 N2).
Defined.

(** X7: with the empty string as output directory the two paths part:
    the existing audio is looked for under its bare name, in the
    current directory, and ffmpeg is told to write ["/"] followed by
    that name, in the root directory. *)
Theorem extract_audio_empty_output_dir (p : string) :
  pathlib.path_str (pathlib.join "" (audio_file p)) = audio_file p
  /\ output_path p "" = ("/" ++ audio_file p)%string
  /\ pathlib.path_str (output_path p "") = ("/" ++ audio_file p)%string
  /\ pathlib.path_str (pathlib.join "" (audio_file p))
     <> pathlib.path_str (output_path p "").
Proof.
  destruct (audio_file_plain p) as (Hs & Hn & Hd).
  assert (A : pathlib.path_str (audio_file p) = audio_file p).
  { unfold pathlib.path_str. rewrite parts_audio_file.
    destruct (audio_file p) as [|c f] eqn:E; [contradiction|].
    simpl in Hs. apply orb_false_iff in Hs as [Hc _].
    rewrite root_relative; [reflexivity|].
    intros ->. discriminate Hc. }
  assert (J : pathlib.join "" (audio_file p) = audio_file p).
  { unfold pathlib.join. destruct (audio_file p) as [|c f]; [reflexivity|].
    destruct c as [[] [] [] [] [] [] [] []]; reflexivity. }
  assert (B : pathlib.path_str (output_path p "")
              = ("/" ++ audio_file p)%string).
  { unfold pathlib.path_str, output_path.
    rewrite parts_app, parts_audio_file.
    change ("" ++ "/" ++ audio_file p)%string with (String "/" (audio_file p)).
    destruct (audio_file p) as [|c f] eqn:E; [contradiction|].
    simpl in Hs. apply orb_false_iff in Hs as [Hc _].
    rewrite root_single; [reflexivity|].
    intros ->. discriminate Hc. }
  rewrite J, A, B. repeat split.
  intros E. apply (f_equal String.length) in E. simpl in E. lia.
Qed.

(** ** [StreamSync.__init__] *)

(** X8: a [reference_object] that is not a non-empty string makes
    [__init__] raise [TypeError] at once: the file system is not
    touched, whatever [pulse_channel] is. *)
Theorem init_rejects_reference_without_io
        (w : World) (reference_object pulse_channel : pyval) (tr : trace) :
  (forall p, reference_object = PyStr p -> p = "") ->
  StreamSync.__init__ w reference_object pulse_channel (tt, tr)
  = (Raise TypeError, (tt, tr)).
Proof.
  intros H. destruct reference_object as [|p|z].
  - reflexivity.
  - rewrite (H p eq_refl). reflexivity.
  - run_py. destruct (z =? 0); reflexivity.
Qed.

Lemma init_rejects_reference_without_io_witness :
  (forall p, PyInt 7 = PyStr p -> p = "")
  /\ StreamSync.__init__ Demo.world (PyInt 7) (PyStr "STI101") (tt, [])
     = (Raise TypeError, (tt, [])).
Proof.
  assert (H : forall p, PyInt 7 = PyStr p -> p = "")
    by (intros p E; discriminate E).
  split; [exact H|].
  exact (init_rejects_reference_without_io Demo.world (PyInt 7)
           (PyStr "STI101") [] H).
Defined.

(** X9: a reference path that does not exist gives [OSError] (and an
    [OSError] raised by the existence test itself passes through), and
    one that exists without the suffix [.fif] gives [ValueError]; in
    all these cases the only effect is the existence test: the file is
    not loaded, and [pulse_channel] is not looked at. *)
Theorem init_rejects_path_before_loading
        (w : World) (p : string) (pulse_channel : pyval) (tr : trace) :
  p <> "" ->
  fs_exists w (pathlib.path_str p) <> Ok true \/ pathlib.suffix p <> ".fif" ->
  StreamSync.__init__ w (PyStr p) pulse_channel (tt, tr)
  = (Raise (match fs_exists w (pathlib.path_str p) with
            | Ok true => ValueError
            | Ok false => OSError
            | Raise e => e
            end),
     (tt, tr ++ [EExists (pathlib.path_str p)])).
Proof.
  intros N H. run_py.
  destruct (String.eqb_spec p "") as [E|_]; [contradiction|]. cbn [negb].
  destruct (fs_exists w (pathlib.path_str p)) as [[|]|e]; try reflexivity.
  destruct H as [H|H]; [contradiction H; reflexivity|].
  destruct (String.eqb_spec (pathlib.suffix p) ".fif") as [E|_];
    [contradiction|reflexivity].
Qed.

Lemma init_rejects_path_before_loading_witness :
  "a.wav" <> ""
  /\ (fs_exists Demo.world (pathlib.path_str "a.wav") <> Ok true
      \/ pathlib.suffix "a.wav" <> ".fif")
  /\ StreamSync.__init__ Demo.world (PyStr "a.wav") PyNone (tt, [])
     = (Raise ValueError, (tt, [EExists "a.wav"]))
  /\ "gone.fif" <> ""
  /\ (fs_exists Demo.world (pathlib.path_str "gone.fif") <> Ok true
      \/ pathlib.suffix "gone.fif" <> ".fif")
  /\ StreamSync.__init__ Demo.world (PyStr "gone.fif") PyNone (tt, [])
     = (Raise OSError, (tt, [EExists "gone.fif"])).
Proof.
  assert (N : "a.wav" <> "") by discriminate.
  assert (H : fs_exists Demo.world (pathlib.path_str "a.wav") <> Ok true
              \/ pathlib.suffix "a.wav" <> ".fif")
    by (right; vm_compute; discriminate).
  assert (N' : "gone.fif" <> "") by discriminate.
  assert (H' : fs_exists Demo.world (pathlib.path_str "gone.fif") <> Ok true
               \/ pathlib.suffix "gone.fif" <> ".fif")
    by (left; vm_compute; discriminate).
  refine (conj N (conj H (conj _ (conj N' (conj H' _))))).
  - exact (init_rejects_path_before_loading Demo.world "a.wav" PyNone [] N H).
  - exact (init_rejects_path_before_loading Demo.world "gone.fif" PyNone []
             N' H').
Defined.

(** X10: [pulse_channel] is checked only after the reference file was
    loaded: with a good reference and a [pulse_channel] that is not a
    non-empty string, [__init__] raises [TypeError] having tested the
    path and parsed the file once. *)
Theorem init_checks_pulse_channel_after_loading
        (w : World) (p : string) (r : Raw) (pulse_channel : pyval)
        (tr : trace) :
  p <> "" ->
  fs_exists w (pathlib.path_str p) = Ok true ->
  pathlib.suffix p = ".fif" ->
  read_raw_fif w p = Ok r ->
  (forall ch, pulse_channel = PyStr ch -> ch = "") ->
  StreamSync.__init__ w (PyStr p) pulse_channel (tt, tr)
  = (Raise TypeError,
     (tt, tr ++ [EExists (pathlib.path_str p); EReadRawFif p])).
Proof.
  intros N X F R H. run_py.
  destruct (String.eqb_spec p "") as [E|_]; [contradiction|]. cbn [negb].
  rewrite X, F, R. cbn [String.eqb Ascii.eqb Bool.eqb].
  rewrite <- app_assoc.
  destruct pulse_channel as [|ch|z].
  - reflexivity.
  - rewrite (H ch eq_refl). reflexivity.
  - cbn [truthy]. destruct (z =? 0); reflexivity.
Qed.

Lemma init_checks_pulse_channel_after_loading_witness :
  "ref.fif" <> ""
  /\ fs_exists Demo.world (pathlib.path_str "ref.fif") = Ok true
  /\ pathlib.suffix "ref.fif" = ".fif"
  /\ read_raw_fif Demo.world "ref.fif" = Ok Demo.reference
  /\ (forall ch, PyNone = PyStr ch -> ch = "")
  /\ StreamSync.__init__ Demo.world (PyStr "ref.fif") PyNone (tt, [])
     = (Raise TypeError, (tt, [EExists "ref.fif"; EReadRawFif "ref.fif"])).
Proof.
  assert (N : "ref.fif" <> "") by discriminate.
  assert (H : forall ch, PyNone = PyStr ch -> ch = "")
    by (intros ch E; discriminate E).
  refine (conj N (conj eq_refl (conj eq_refl (conj eq_refl (conj H _))))).
  exact (init_checks_pulse_channel_after_loading Demo.world "ref.fif"
           Demo.reference PyNone [] N eq_refl eq_refl eq_refl H).
Defined.

(** X11: a channel lookup that gives [None] makes [__init__] raise
    [ValueError], and a lookup that raises lets its own exception
    through unchanged; either way the file was loaded once and the
    channel read once. *)
Theorem init_channel_lookup_failure
        (w : World) (p ch : string) (r : Raw) (tr : trace) :
  p <> "" ->
  fs_exists w (pathlib.path_str p) = Ok true ->
  pathlib.suffix p = ".fif" ->
  read_raw_fif w p = Ok r ->
  ch <> "" ->
  (forall d, raw_getitem r ch <> Ok (Some d)) ->
  StreamSync.__init__ w (PyStr p) (PyStr ch) (tt, tr)
  = (Raise (match raw_getitem r ch with
            | Raise e => e
            | Ok _ => ValueError
            end),
     (tt, tr ++ [EExists (pathlib.path_str p); EReadRawFif p;
                 ERawGetItem ch])).
Proof.
  intros N X F R C H. run_py.
  destruct (String.eqb_spec p "") as [E|_]; [contradiction|].
  destruct (String.eqb_spec ch "") as [E|_]; [contradiction|]. cbn [negb].
  rewrite X, F, R. cbn [String.eqb Ascii.eqb Bool.eqb].
  rewrite <- !app_assoc.
  destruct (raw_getitem r ch) as [[d|]|e]; try reflexivity.
  exfalso. apply (H d). reflexivity.
Qed.

Lemma init_channel_lookup_failure_witness :
  "ref.fif" <> ""
  /\ fs_exists Demo.world (pathlib.path_str "ref.fif") = Ok true
  /\ pathlib.suffix "ref.fif" = ".fif"
  /\ read_raw_fif Demo.world "ref.fif" = Ok Demo.reference
  /\ "MISC001" <> ""
  /\ (forall d, raw_getitem Demo.reference "MISC001" <> Ok (Some d))
  /\ StreamSync.__init__ Demo.world (PyStr "ref.fif") (PyStr "MISC001") (tt, [])
     = (Raise (LibError "ValueError"),
        (tt, [EExists "ref.fif"; EReadRawFif "ref.fif";
              ERawGetItem "MISC001"])).
Proof.
  assert (N : "ref.fif" <> "") by discriminate.
  assert (C : "MISC001" <> "") by discriminate.
  assert (H : forall d, raw_getitem Demo.reference "MISC001" <> Ok (Some d))
    by (intros d E; discriminate E).
  refine (conj N (conj eq_refl (conj eq_refl (conj eq_refl
            (conj C (conj H _)))))).
  exact (init_channel_lookup_failure Demo.world "ref.fif" "MISC001"
           Demo.reference [] N eq_refl eq_refl eq_refl C H).
Defined.

(** X12: on valid input [__init__] loads the reference file twice and
    reads the pulse channel twice, in this order: existence test, load,
    channel, load, channel; the object holds the recording, its
    sampling frequency, the channel data and no stream. *)
Theorem init_loads_the_reference_twice
        (w : World) (p ch : string) (r : Raw) (d : RawData) (tr : trace) :
  p <> "" ->
  fs_exists w (pathlib.path_str p) = Ok true ->
  pathlib.suffix p = ".fif" ->
  read_raw_fif w p = Ok r ->
  ch <> "" ->
  raw_getitem r ch = Ok (Some d) ->
  StreamSync.__init__ w (PyStr p) (PyStr ch) (tt, tr)
  = (Ok {| StreamSync.raw := r;
           StreamSync.ref_stream := Some d;
           StreamSync.sfreq := raw_sfreq r;
           StreamSync.streams := [] |},
     (tt, tr ++ [EExists (pathlib.path_str p); EReadRawFif p; ERawGetItem ch;
                 EReadRawFif p; ERawGetItem ch])).
Proof.
  intros N X F R C G. run_py.
  destruct (String.eqb_spec p "") as [E|_]; [contradiction|].
  destruct (String.eqb_spec ch "") as [E|_]; [contradiction|]. cbn [negb].
  rewrite X, F, R. cbn [String.eqb Ascii.eqb Bool.eqb].
  rewrite G. rewrite <- !app_assoc. reflexivity.
Qed.

Lemma init_loads_the_reference_twice_witness :
  "ref.fif" <> ""
  /\ fs_exists Demo.world (pathlib.path_str "ref.fif") = Ok true
  /\ pathlib.suffix "ref.fif" = ".fif"
  /\ read_raw_fif Demo.world "ref.fif" = Ok Demo.reference
  /\ "STI101" <> ""
  /\ raw_getitem Demo.reference "STI101" = Ok (Some Demo.flat)
  /\ StreamSync.__init__ Demo.world (PyStr "ref.fif") (PyStr "STI101") (tt, [])
     = (Ok Demo.session,
        (tt, [EExists "ref.fif"; EReadRawFif "ref.fif"; ERawGetItem "STI101";
              EReadRawFif "ref.fif"; ERawGetItem "STI101"])).
Proof.
  assert (N : "ref.fif" <> "") by discriminate.
  assert (C : "STI101" <> "") by discriminate.
  refine (conj N (conj eq_refl (conj eq_refl (conj eq_refl
            (conj C (conj eq_refl _)))))).
  exact (init_loads_the_reference_twice Demo.world "ref.fif" "STI101"
           Demo.reference Demo.flat [] N eq_refl eq_refl eq_refl C eq_refl).
Defined.

(** ** [StreamSync.add_stream] *)

(** X13: [add_stream] never touches the reference and only ever
    appends: [raw], [ref_stream] and [sfreq] are the same after the
    call, and [self.streams] is the old list followed by at most one
    new tuple, whether the call returns or raises. *)
Theorem add_stream_only_appends
        (w : World) (stream channel events : pyval)
        (self : StreamSync.t) (tr : trace) :
  let self' :=
    fst (snd (StreamSync.add_stream w stream channel events (self, tr))) in
  StreamSync.raw self' = StreamSync.raw self
  /\ StreamSync.ref_stream self' = StreamSync.ref_stream self
  /\ StreamSync.sfreq self' = StreamSync.sfreq self
  /\ exists added,
      StreamSync.streams self' = StreamSync.streams self ++ added
      /\ (List.length added <= 1)%nat.
Proof.
  rewrite add_stream_run.
  assert (K : forall s, s = self ->
            StreamSync.raw s = StreamSync.raw self
            /\ StreamSync.ref_stream s = StreamSync.ref_stream self
            /\ StreamSync.sfreq s = StreamSync.sfreq self
            /\ exists added,
                StreamSync.streams s = StreamSync.streams self ++ added
                /\ (List.length added <= 1)%nat).
  { intros s ->. repeat split. exists []. rewrite app_nil_r. split; auto. }
  destruct stream as [|p|z]; try (apply K; reflexivity).
  destruct (pathlib.suffix p =? ".wav")%string; [|apply K; reflexivity].
  destruct (extract_wav_state w p channel self tr) as [r ->].
  destruct r as [[[rate pl] d]|e]; [|apply K; reflexivity].
  cbn. repeat split. eexists [_]. split; [reflexivity|simpl; lia].
Qed.

(** X14: the two channels of a stored stream stay aligned: when
    [add_stream] returns on a file that decodes to a signal of [rows],
    the tuple it appended holds the path as given, the rate of the
    file, and two one-dimensional arrays that both have one sample per
    row. *)
Theorem add_stream_stores_aligned_channels
        (w : World) (p : string) (rate : Z) (k : nat) (rows : list (list Z))
        (channel events : pyval) (self : StreamSync.t) (tr : trace) :
  wavread w p = Ok (rate, Multi k rows) ->
  fst (StreamSync.add_stream w (PyStr p) channel events (self, tr)) = Ok tt ->
  exists xs ys,
    StreamSync.streams
      (fst (snd (StreamSync.add_stream w (PyStr p) channel events (self, tr))))
    = StreamSync.streams self
      ++ [StreamSync.mkEntry (PyStr p) rate (Arr1 xs) (Arr1 ys)]
    /\ List.length xs = List.length rows
    /\ List.length ys = List.length rows.
Proof.
  intros W. rewrite add_stream_run.
  destruct (pathlib.suffix p =? ".wav")%string; [|discriminate].
  rewrite extract_wav_run, W.
  destruct channel as [| |c]; cbn [getitem_col rsub1]; try discriminate.
  destruct (norm_index k c) as [i|e]; [|discriminate].
  destruct (norm_index k (1 - c)) as [j|e]; [|discriminate].
  intros _. exists (column i rows), (column j rows).
  split; [reflexivity|]. unfold column. rewrite !length_map. auto.
Qed.

Lemma add_stream_stores_aligned_channels_witness :
  wavread Demo.world "a.wav" = Ok (44100, Demo.stereo)
  /\ fst (StreamSync.add_stream Demo.world (PyStr "a.wav") (PyInt 1) PyNone
            (Demo.session, [])) = Ok tt
  /\ exists xs ys,
      StreamSync.streams
        (fst (snd (StreamSync.add_stream Demo.world (PyStr "a.wav") (PyInt 1)
                     PyNone (Demo.session, []))))
      = StreamSync.streams Demo.session
        ++ [StreamSync.mkEntry (PyStr "a.wav") 44100 (Arr1 xs) (Arr1 ys)]
      /\ List.length xs = 3%nat /\ List.length ys = 3%nat.
Proof.
  refine (conj eq_refl (conj eq_refl _)).
  exact (add_stream_stores_aligned_channels Demo.world "a.wav" 44100 2
           [[0; 5]; [0; -3]; [0; 7]] (PyInt 1) PyNone Demo.session []
           eq_refl eq_refl).
Defined.

(** X15: the channel argument only decides which column is called the
    pulses: if [_extract_data_from_wav] returns (rate, pulses, data) for
    channel [c], it returns (rate, data, pulses) for channel [1 - c]. *)
Theorem extract_data_from_wav_swaps
        (w : World) (p : string) (c rate : Z) (pl d : ndarray)
        (st : StreamSync.state) :
  fst (StreamSync._extract_data_from_wav w p (PyInt c) st) = Ok (rate, pl, d) ->
  fst (StreamSync._extract_data_from_wav w p (PyInt (1 - c)) st)
  = Ok (rate, d, pl).
Proof.
  destruct st as [self tr]. rewrite !extract_wav_run. cbn [fst].
  destruct (wavread w p) as [[rate0 [xs|k rows]]|e]; try discriminate.
  cbn [getitem_col rsub1].
  replace (1 - (1 - c)) with c by lia.
  destruct (norm_index k c) as [i|e]; [|discriminate].
  destruct (norm_index k (1 - c)) as [j|e]; [|discriminate].
  intros H. injection H as <- <- <-. reflexivity.
Qed.

Lemma extract_data_from_wav_swaps_witness :
  fst (StreamSync._extract_data_from_wav Demo.world "a.wav" (PyInt 0)
         (Demo.session, []))
  = Ok (44100, Arr1 [0; 0; 0], Arr1 [5; -3; 7])
  /\ fst (StreamSync._extract_data_from_wav Demo.world "a.wav" (PyInt (1 - 0))
            (Demo.session, []))
     = Ok (44100, Arr1 [5; -3; 7], Arr1 [0; 0; 0]).
Proof.
  assert (H : fst (StreamSync._extract_data_from_wav Demo.world "a.wav"
                     (PyInt 0) (Demo.session, []))
              = Ok (44100, Arr1 [0; 0; 0], Arr1 [5; -3; 7])) by reflexivity.
  split; [exact H|].
  exact (extract_data_from_wav_swaps Demo.world "a.wav" 0 44100
           (Arr1 [0; 0; 0]) (Arr1 [5; -3; 7]) (Demo.session, []) H).
Defined.

(** X16: on a signal with an odd number k >= 3 of columns, the channel
    c = (k + 1) / 2 is accepted and gives the same column twice: the
    index 1 - c is negative, counts from the end and lands on column c
    again, so pulses and data are one and the same channel. *)
Theorem extract_data_from_wav_same_column_twice
        (w : World) (p : string) (rate : Z) (k : nat) (rows : list (list Z))
        (c : Z) (st : StreamSync.state) :
  wavread w p = Ok (rate, Multi k rows) ->
  (3 <= k)%nat ->
  2 * c = Z.of_nat k + 1 ->
  fst (StreamSync._extract_data_from_wav w p (PyInt c) st)
  = Ok (rate, Arr1 (column (Z.to_nat c) rows), Arr1 (column (Z.to_nat c) rows)).
Proof.
  intros W K C. destruct st as [self tr].
  rewrite extract_wav_run, W. cbn [fst getitem_col rsub1].
  unfold norm_index.
  destruct (Z.leb_spec (- Z.of_nat k) c); [|lia].
  destruct (Z.ltb_spec c (Z.of_nat k)); [|lia].
  destruct (Z.leb_spec (- Z.of_nat k) (1 - c)); [|lia].
  destruct (Z.ltb_spec (1 - c) (Z.of_nat k)); [|lia].
  destruct (Z.ltb_spec c 0); [lia|].
  destruct (Z.ltb_spec (1 - c) 0); [|lia].
  cbn [andb]. replace (1 - c + Z.of_nat k) with c by lia. reflexivity.
Qed.

Lemma extract_data_from_wav_same_column_twice_witness :
  wavread Studio.world "three.wav" = Ok (22050, Multi 3 [[1; 2; 3]; [4; 5; 6]])
  /\ (3 <= 3)%nat
  /\ 2 * 2 = Z.of_nat 3 + 1
  /\ fst (StreamSync._extract_data_from_wav Studio.world "three.wav" (PyInt 2)
            (Demo.session, []))
     = Ok (22050, Arr1 [3; 6], Arr1 [3; 6]).
Proof.
  refine (conj eq_refl (conj (le_n 3) (conj eq_refl _))).
  exact (extract_data_from_wav_same_column_twice Studio.world "three.wav"
           22050 3 [[1; 2; 3]; [4; 5; 6]] 2 (Demo.session, [])
           eq_refl (le_n 3) eq_refl).
Defined.

(** X17: [add_stream] needs an integer channel: with the default
    [channel=None] or with a channel name (a string) the call never
    returns and the object is unchanged; when the stream is a [.wav]
    file that decodes, the exception is [TypeError] for [None] (from
    [1 - channel]) and [IndexError] for a string. *)
Theorem add_stream_needs_integer_channel
        (w : World) (stream channel events : pyval)
        (self : StreamSync.t) (tr : trace) :
  (forall c, channel <> PyInt c) ->
  fst (snd (StreamSync.add_stream w stream channel events (self, tr))) = self
  /\ exists e,
      fst (StreamSync.add_stream w stream channel events (self, tr)) = Raise e
      /\ (forall p rate sig,
             stream = PyStr p -> pathlib.suffix p = ".wav" ->
             wavread w p = Ok (rate, sig) ->
             e = match channel with PyNone => TypeError | _ => IndexError end).
Proof.
  intros H. rewrite add_stream_run.
  destruct stream as [|p|z].
  - split; [reflexivity|]. exists TypeError. split; [reflexivity|].
    intros p rate sig E. discriminate E.
  - destruct (String.eqb_spec (pathlib.suffix p) ".wav") as [S|S].
    + rewrite extract_wav_run.
      destruct (wavread w p) as [[rate sig]|e] eqn:W.
      * destruct channel as [| |c].
        -- destruct sig as [xs|k rows]; cbn; (split; [reflexivity|]);
             exists TypeError; split; auto.
        -- cbn. split; [reflexivity|]. exists IndexError. split; auto.
        -- exfalso. apply (H c). reflexivity.
      * split; [reflexivity|]. exists e. split; [reflexivity|].
        intros p' rate sig E1 _ E. injection E1 as <-. congruence.
    + split; [reflexivity|]. exists TypeError. split; [reflexivity|].
      intros p' rate sig E S'. injection E as <-. contradiction.
  - split; [reflexivity|]. exists TypeError. split; [reflexivity|].
    intros p rate sig E. discriminate E.
Qed.

Lemma add_stream_needs_integer_channel_witness :
  (forall c, PyStr "left" <> PyInt c)
  /\ fst (snd (StreamSync.add_stream Demo.world (PyStr "a.wav") (PyStr "left")
                 PyNone (Demo.session, []))) = Demo.session
  /\ fst (StreamSync.add_stream Demo.world (PyStr "a.wav") (PyStr "left")
            PyNone (Demo.session, [])) = Raise IndexError.
Proof.
  assert (H : forall c, PyStr "left" <> PyInt c) by (intros c E; discriminate E).
  pose proof (add_stream_needs_integer_channel Demo.world (PyStr "a.wav")
                (PyStr "left") PyNone Demo.session [] H) as [U _].
  refine (conj H (conj U _)). reflexivity.
Defined.

(** X18: the streams are not keyed by their name: a call of
    [add_stream] that returned returns again when repeated, and leaves
    the same tuple a second time at the end of [self.streams]. *)
Theorem add_stream_twice_stores_twice
        (w : World) (stream channel events : pyval)
        (self self1 : StreamSync.t) (tr tr1 : trace) :
  StreamSync.add_stream w stream channel events (self, tr)
  = (Ok tt, (self1, tr1)) ->
  exists entry,
    StreamSync.filename entry = stream
    /\ StreamSync.streams self1 = StreamSync.streams self ++ [entry]
    /\ forall tr2,
        exists tr3,
          StreamSync.add_stream w stream channel events (self1, tr2)
          = (Ok tt, (StreamSync.append_stream entry self1, tr3))
          /\ StreamSync.streams (StreamSync.append_stream entry self1)
             = StreamSync.streams self ++ [entry; entry].
Proof.
  rewrite add_stream_run.
  destruct stream as [|p|z]; try discriminate.
  destruct (pathlib.suffix p =? ".wav")%string eqn:S; [|discriminate].
  rewrite extract_wav_run.
  destruct (wavread w p) as [[rate sig]|e] eqn:W; [|discriminate].
  destruct (getitem_col sig channel) as [pl|e] eqn:G1; [|discriminate].
  destruct (rsub1 channel) as [other|e] eqn:R; [|discriminate].
  destruct (getitem_col sig other) as [d|e] eqn:G2; [|discriminate].
  intros H. injection H as <- _.
  exists (StreamSync.mkEntry (PyStr p) rate pl d).
  split; [reflexivity|]. split; [reflexivity|].
  intros tr2. eexists. rewrite add_stream_run, S, extract_wav_run, W, G1, R, G2.
  split; [reflexivity|]. cbn. rewrite <- app_assoc. reflexivity.
Qed.

Lemma add_stream_twice_stores_twice_witness :
  let e := StreamSync.mkEntry (PyStr "a.wav") 44100
             (Arr1 [0; 0; 0]) (Arr1 [5; -3; 7]) in
  StreamSync.add_stream Demo.world (PyStr "a.wav") (PyInt 0) PyNone
    (Demo.session, [])
  = (Ok tt, (StreamSync.append_stream e Demo.session, [EWavRead "a.wav"]))
  /\ exists entry,
      StreamSync.filename entry = PyStr "a.wav"
      /\ StreamSync.streams (StreamSync.append_stream e Demo.session)
         = StreamSync.streams Demo.session ++ [entry].
Proof.
  intros e.
  assert (H : StreamSync.add_stream Demo.world (PyStr "a.wav") (PyInt 0)
                PyNone (Demo.session, [])
              = (Ok tt, (StreamSync.append_stream e Demo.session,
                         [EWavRead "a.wav"]))) by reflexivity.
  split; [exact H|].
  destruct (add_stream_twice_stores_twice Demo.world (PyStr "a.wav") (PyInt 0)
              PyNone Demo.session (StreamSync.append_stream e Demo.session)
              [] [EWavRead "a.wav"] H) as (entry & F & L & _).
  exists entry. split; [exact F|exact L].
Defined.

(** X19: [add_stream] decodes the file exactly once when the path has
    the suffix [.wav], with the path as it was given, and before it
    looks at the channel, so that a call with a bad channel costs the
    read all the same; for any other stream it opens no file. *)
Theorem add_stream_reads_the_file_once
        (w : World) (stream channel events : pyval)
        (self : StreamSync.t) (tr : trace) :
  snd (snd (StreamSync.add_stream w stream channel events (self, tr)))
  = tr ++ match stream with
          | PyStr p =>
              if (pathlib.suffix p =? ".wav")%string then [EWavRead p] else []
          | _ => []
          end.
Proof.
  rewrite add_stream_run.
  destruct stream as [|p|z]; try (rewrite app_nil_r; reflexivity).
  destruct (pathlib.suffix p =? ".wav")%string;
    [|rewrite app_nil_r; reflexivity].
  destruct (extract_wav_state w p channel self tr) as [r ->].
  destruct r as [[[rate pl] d]|e]; reflexivity.
Qed.
